(** * rebirth: the reload supervisor (reloader.go) and its configuration
    (config.go), embedded as state-passing functions over an explicit
    world: the receiver [*Reloader], the file system and the ordered log
    of external effects. *)

From Stdlib Require Import ZArith Lia.
From Stdlib Require Import Ascii.
From stdpp Require Import gmap strings list fin_maps.

Local Open Scope Z_scope.

(** ** Go standard library: fmt's [%d] verb and strconv.ParseInt *)

Module strconv.

Inductive NumErrKind := ErrSyntax | ErrRange.

(** [*strconv.NumError]: the function, the offending input, the cause. *)
Record NumError := mkNumError
  { Func : string; Num : string; Kind : NumErrKind }.

Definition maxUint64 : Z := 2 ^ 64 - 1.

(** The byte of the decimal digit [d]: [byte('0' + d)]. *)
Definition digit_byte (d : Z) : ascii := ascii_of_N (Z.to_N (48 + d)).

(** The value of a byte in base 10.  Letters are digits of a larger
    base ([d >= byte(base)]) and every other byte is no digit at all;
    ParseUint answers both with the same syntax error. *)
Definition digit_val (c : ascii) : option Z :=
  let n := Z.of_N (N_of_ascii c) in
  if (48 <=? n) && (n <=? 57) then Some (n - 48) else None.

(** The body of ParseUint's [for _, c := range []byte(s)] at base 10
    and bitSize 64, with [n] the accumulator.  [inl] is the error kind
    (ParseUint also returns [maxVal] on a range error), [inr] the
    number. *)
Fixpoint parse_loop (n : Z) (s : string) : NumErrKind + Z :=
  match s with
  | EmptyString => inr n
  | String c s' =>
      match digit_val c with
      | None => inl ErrSyntax
      | Some d =>
          let cutoff := maxUint64 / 10 + 1 in
          if cutoff <=? n then inl ErrRange
          else
            let n0 := n * 10 in
            let n1 := (n0 + d) mod 2 ^ 64 in
            if (n1 <? n0) || (maxUint64 <? n1) then inl ErrRange
            else parse_loop n1 s'
      end
  end.

Definition ParseUint (s : string) : NumErrKind + Z :=
  match s with
  | EmptyString => inl ErrSyntax
  | _ => parse_loop 0 s
  end.

(** [strconv.ParseInt(s, 10, 64)]. *)
Definition ParseInt (s0 : string) : NumError + Z :=
  match s0 with
  | EmptyString => inl (mkNumError "ParseInt" s0 ErrSyntax)
  | String c rest =>
      let '(neg, s) :=
        if Ascii.eqb c "+" then (false, rest)
        else if Ascii.eqb c "-" then (true, rest)
        else (false, s0) in
      let cutoff := 2 ^ 63 in
      let range_check (un : Z) :=
        if negb neg && (cutoff <=? un)
        then inl (mkNumError "ParseInt" s0 ErrRange)
        else if neg && (cutoff <? un)
        then inl (mkNumError "ParseInt" s0 ErrRange)
        else inr (if neg then - un else un) in
      match ParseUint s with
      | inl ErrSyntax => inl (mkNumError "ParseInt" s0 ErrSyntax)
      | inl ErrRange => range_check maxUint64
      | inr un => range_check un
      end
  end.

End strconv.

Module fmt.

(** fmtInteger's digit loop at base 10:
    [for u >= 10 { i--; next := u / 10; buf[i] = '0' + u - next*10; u = next }]
    followed by the last digit.  The loop shortens [u] by a decimal
    digit each round, so the binary length of [u] bounds its rounds. *)
Fixpoint fmt_digits (rounds : nat) (u : Z) (buf : string) : string :=
  match rounds with
  | O => String (strconv.digit_byte (u mod 10)) buf
  | S r =>
      if u <? 10 then String (strconv.digit_byte u) buf
      else
        let next := u / 10 in
        fmt_digits r next (String (strconv.digit_byte (u - next * 10)) buf)
  end.

(** [fmt.Sprintf("%d", i)] and [fmt.Sprint(i)] for an [int] [i]. *)
Definition Sprint (i : Z) : string :=
  if i <? 0
  then String "-" (fmt_digits (Z.to_nat (Z.log2 (- i))) (- i) "")
  else fmt_digits (Z.to_nat (Z.log2 i)) i "".

End fmt.

(** ** Go standard library: strings.Split and filepath.Join *)

Module strings.

(** [strings.Split(s, " ")]: the pieces between single spaces; an
    empty [s] gives one empty piece. *)
Fixpoint Split (s : string) : list string :=
  match s with
  | EmptyString => [EmptyString]
  | String c s' =>
      if Ascii.eqb c " " then EmptyString :: Split s'
      else match Split s' with
           | w :: ws => String c w :: ws
           | [] => [String c EmptyString]
           end
  end.

End strings.

Module filepath.

(** The part of [filepath.Clean] these call sites need: runs of
    separators become one.  The elements joined here carry no [.] or
    [..] and no trailing separator. *)
Fixpoint squeeze (s : string) : string :=
  match s with
  | EmptyString => EmptyString
  | String c s' =>
      match s' with
      | String c' _ =>
          if Ascii.eqb c "/" && Ascii.eqb c' "/" then squeeze s'
          else String c (squeeze s')
      | EmptyString => String c EmptyString
      end
  end.

(** [filepath.Join(elems...)]: empty elements are dropped, the rest is
    joined with the separator and cleaned. *)
Definition Join (elems : list string) : string :=
  squeeze (String.concat "/" (filter (λ e, e ≠ EmptyString) elems)).

End filepath.

(** ** Errors *)

Inductive Errno := ENOENT.

(** Go [error] values.  [Errorf msg cause] is
    [xerrors.Errorf(msg + ": %w", cause)]. *)
Inductive error :=
| PathError (op path : string) (errno : Errno)
| NumError (e : strconv.NumError)
| ExternalError (msg : string)
| FormatError (msg : string)
| Errorf (msg : string) (cause : error).

(** What a call gives back: a value, a non-nil [error], or a run-time
    panic (a nil pointer dereference). *)
Inductive Res (A : Type) :=
| Ok (a : A)
| Err (e : error)
| Panic.
Arguments Ok {A} a.
Arguments Err {A} e.
Arguments Panic {A}.

(** ** config.go *)

Module config.

Record Host := { Host_Docker : string }.

(** [type Build struct { Env map[string]string }]: the only field the
    declaration has. *)
Record Build := { Build_Env : gmap string string }.

Record Run := { Run_Env : gmap string string }.

Record Config :=
  { Config_Host : option Host;
    Config_Build : option Build;
    Config_Run : option Run }.

(** A YAML document after parsing: scalars, sequences and mappings
    with their keys in document order. *)
#[warnings="-register-all"]
Inductive Yaml :=
| YScalar (s : string)
| YSeq (items : list Yaml)
| YMap (entries : list (string * Yaml)).

(** The first entry of a mapping under key [k]. *)
Fixpoint field (k : string) (entries : list (string * Yaml)) : option Yaml :=
  match entries with
  | [] => None
  | (k', v) :: rest => if decide (k' = k) then Some v else field k rest
  end.

(** Decoding into [map[string]string]. *)
Fixpoint decode_env (entries : list (string * Yaml)) : option (gmap string string) :=
  match entries with
  | [] => Some ∅
  | (k, YScalar v) :: rest =>
      match decode_env rest with
      | Some m => Some (<[k := v]> m)
      | None => None
      end
  | _ => None
  end.

(** Decoding into a struct follows the [yaml:"..."] tags of its
    fields; a key of the document that no field is tagged with is
    skipped, and a tagged key that is absent leaves the field at its
    zero value. *)
Definition decode_env_field (entries : list (string * Yaml))
  : option (gmap string string) :=
  match field "env" entries with
  | None => Some ∅
  | Some (YMap kvs) => decode_env kvs
  | Some _ => None
  end.

Definition decode_Host (y : Yaml) : option Host :=
  match y with
  | YMap entries =>
      match field "docker" entries with
      | None => Some {| Host_Docker := "" |}
      | Some (YScalar s) => Some {| Host_Docker := s |}
      | Some _ => None
      end
  | _ => None
  end.

Definition decode_Build (y : Yaml) : option Build :=
  match y with
  | YMap entries =>
      match decode_env_field entries with
      | Some m => Some {| Build_Env := m |}
      | None => None
      end
  | _ => None
  end.

Definition decode_Run (y : Yaml) : option Run :=
  match y with
  | YMap entries =>
      match decode_env_field entries with
      | Some m => Some {| Run_Env := m |}
      | None => None
      end
  | _ => None
  end.

(** A pointer field: nil when the key is absent. *)
Definition decode_ptr {A} (dec : Yaml → option A) (k : string)
    (entries : list (string * Yaml)) : option (option A) :=
  match field k entries with
  | None => Some None
  | Some y => match dec y with Some a => Some (Some a) | None => None end
  end.

(** [yaml.Unmarshal(file, &cfg)] on the parsed document. *)
Definition Unmarshal (y : Yaml) : option Config :=
  match y with
  | YMap entries =>
      match decode_ptr decode_Host "host" entries,
            decode_ptr decode_Build "build" entries,
            decode_ptr decode_Run "run" entries with
      | Some h, Some b, Some r =>
          Some {| Config_Host := h; Config_Build := b; Config_Run := r |}
      | _, _, _ => None
      end
  | _ => None
  end.

Section LoadConfig.
(** The YAML reader, from the bytes of the file to the document. *)
Variable parse : string → option Yaml.
Variable fs : gmap string string.

Definition LoadConfig (confPath : string) : Res Config :=
  match fs !! confPath with
  | None =>
      Err (Errorf ("failed to read config file from " +:+ confPath)
             (PathError "open" confPath ENOENT))
  | Some file =>
      match parse file with
      | None => Err (FormatError file)
      | Some y =>
          match Unmarshal y with
          | Some cfg => Ok cfg
          | None => Err (FormatError file)
          end
      end
  end.
End LoadConfig.

End config.

(** ** reloader.go: data *)

(** Modelled from the spec: the struct behind [r.build] as reloader.go
    reads it.  The declaration in config.go has [Env] only, while
    reloader.go ranges over [r.build.Init], [r.build.Before] and
    [r.build.After]; the spec's Build Configuration ("ordered list of
    shell-style commands for three phases (init, before, after) plus a
    mapping of environment-variable name to value") supplies the three
    lists.  [NewReloader], which copies [cfg.Build] into [r.build], has
    no counterpart here for that reason: the methods below are stated
    for every receiver. *)
Record Build :=
  { Build_Env : gmap string string;
    Build_Init : list string;
    Build_Before : list string;
    Build_After : list string }.

(** The process handle ([*Command], declared outside reloader.go), known
    by the calls reloader.go makes on it: [NewCommand(path)] and
    [AddEnv(env)]. *)
Record Command := { Command_path : string; Command_env : list string }.

Definition NewCommand (path : string) : Command :=
  {| Command_path := path; Command_env := [] |}.

Definition Command_AddEnv (env : list string) (c : Command) : Command :=
  {| Command_path := Command_path c; Command_env := Command_env c ++ env |}.

(** The toolchain command ([NewGoCommand()]), known by [AddEnv],
    [EnableCrossBuild(container)] and [SetDir(dir)]. *)
Record GoCommand :=
  { Go_env : list string; Go_cross : option string; Go_dir : option string }.

Definition NewGoCommand : GoCommand :=
  {| Go_env := []; Go_cross := None; Go_dir := None |}.

Definition Go_AddEnv (env : list string) (g : GoCommand) : GoCommand :=
  {| Go_env := Go_env g ++ env; Go_cross := Go_cross g; Go_dir := Go_dir g |}.

Definition EnableCrossBuild (container : string) (g : GoCommand) : GoCommand :=
  {| Go_env := Go_env g; Go_cross := Some container; Go_dir := Go_dir g |}.

Definition SetDir (dir : string) (g : GoCommand) : GoCommand :=
  {| Go_env := Go_env g; Go_cross := Go_cross g; Go_dir := Some dir |}.

(** [type Reloader struct]; a nil pointer is [None]. *)
Record Reloader :=
  { host : option config.Host;
    cmd : option Command;
    build : option Build;
    run : option config.Run }.

(** The effects the supervisor has on its surroundings, as they happen. *)
Inductive Event :=
| EvStdout (line : string)
    (** [fmt.Println] and [fmt.Printf], the text without its newline *)
| EvGoRun (g : GoCommand) (args : list string)
    (** [gocmd.RunInGoContext(args...)] *)
| EvGoBuild (g : GoCommand) (args : list string)
    (** [gocmd.Build(args...)] *)
| EvDockerRun (container : string) (args : list string)
    (** [NewDockerCommand(container, args...).Run()] *)
| EvGoDockerRun (container : string) (args : list string)
    (** the same behind a [go] statement: started, never awaited *)
| EvWriteFile (path content : string)
    (** [ioutil.WriteFile(path, content, 0644)] *)
| EvStop (c : Command)
    (** [c.Stop()] *)
| EvRunAsync (c : Command)
    (** [c.RunAsync()] *)
| EvNotify (sig : string).
    (** [signal.Notify] and the goroutine that serves the signal *)

(** The surroundings of one supervisor process. *)
Record Sys :=
  { Getpid : Z;                       (** [os.Getpid()] *)
    cwd : string;                     (** [os.Getwd()] at [init()] *)
    rebirthDir : string;              (** directory of reloader.go, [runtime.Caller(0)] *)
    ExpandPath : string → string;     (** declared outside reloader.go *)
    outcome : list Event → option error
      (** whether the external call just logged (the last event) came
          back with an error, given everything that happened before *) }.

(** Receiver, file system (path to content) and log, oldest event first.
    External commands act on the log only: hooks, builds and remote
    commands leave the modelled files as they are. *)
Record State :=
  { rl : Reloader;
    files : gmap string string;
    log : list Event }.

Definition set_log (l : list Event) (s : State) : State :=
  {| rl := rl s; files := files s; log := l |}.

Definition set_files (f : gmap string string) (s : State) : State :=
  {| rl := rl s; files := f; log := log s |}.

Definition set_cmd (c : option Command) (s : State) : State :=
  {| rl := {| host := host (rl s); cmd := c; build := build (rl s); run := run (rl s) |};
     files := files s; log := log s |}.

(** ** A state-and-error monad for the methods of [*Reloader] *)

Definition M (A : Type) : Type := State → Res A * State.

Definition ret {A} (a : A) : M A := λ s, (Ok a, s).

Definition bind {A B} (m : M A) (k : A → M B) : M B :=
  λ s, match m s with
       | (Ok a, s') => k a s'
       | (Err e, s') => (Err e, s')
       | (Panic, s') => (Panic, s')
       end.

Declare Scope go_scope.
Delimit Scope go_scope with go.
Notation "'let*' x ':=' m 'in' k" := (bind m (λ x, k))
  (at level 10, x name, m at level 100, k at level 200) : go_scope.
Notation "m '>>' k" := (bind m (λ _, k))
  (at level 100, k at level 200, right associativity) : go_scope.
Local Open Scope go_scope.

(** [if err := m; err != nil { return xerrors.Errorf(msg + ": %w", err) }] *)
Definition try {A} (msg : string) (m : M A) : M A :=
  λ s, match m s with
       | (Err e, s') => (Err (Errorf msg e), s')
       | r => r
       end.

Definition gets {A} (f : State → A) : M A := λ s, (Ok (f s), s).

(** Dereferencing a pointer field of the receiver. *)
Definition deref {A} (f : Reloader → option A) : M A :=
  λ s, match f (rl s) with
       | Some a => (Ok a, s)
       | None => (Panic, s)
       end.

(** An effect that reports nothing back. *)
Definition emit (ev : Event) : M unit :=
  λ s, (Ok tt, set_log (log s ++ [ev]) s).

(** [for _, x := range l { body }] where the body may return early with
    an error. *)
Fixpoint for_range {A} (l : list A) (body : A → M unit) : M unit :=
  match l with
  | [] => ret tt
  | x :: l' => body x >> for_range l' body
  end.

(** ** reloader.go: package variables set in [init()] *)

Definition configDir : string := ".rebirth".
Definition pidPath : string := filepath.Join [configDir; "server.pid"].
Definition dockerRebirthPath : string := filepath.Join [configDir; "__rebirth"].
Definition binPath : string := filepath.Join [configDir; "bin"].
Definition pkgPath : string := filepath.Join [configDir; "pkg"].
Definition dockerenvPath : string := filepath.Join ["/"; ".dockerenv"].

(** [for k, v := range env { list = append(list, Sprintf("%s=%s", k, f(v))) }];
    Go leaves the order of a map's keys open, [map_to_list] fixes one. *)
Definition env_list (f : string → string) (env : gmap string string) : list string :=
  (λ kv, kv.1 +:+ "=" +:+ f kv.2) <$> map_to_list env.

(** ** reloader.go: the methods of [*Reloader] *)

Section Reloader.

Context (sys : Sys).

Definition buildPath : string :=
  filepath.Join [cwd sys; configDir; "program"].

(** An external call whose error the caller looks at. *)
Definition call (ev : Event) : M unit :=
  λ s, let l := log s ++ [ev] in
       (match outcome sys l with
        | None => Ok tt
        | Some e => Err e
        end, set_log l s).

Definition Println (line : string) : M unit := emit (EvStdout line).

(** [ioutil.ReadFile]: the content, or the path is not there. *)
Definition ReadFile (path : string) : M string :=
  λ s, match files s !! path with
       | Some content => (Ok content, s)
       | None => (Err (PathError "open" path ENOENT), s)
       end.

(** [ioutil.WriteFile]: the content replaces what the path held. *)
Definition WriteFile (path content : string) : M unit :=
  call (EvWriteFile path content) >>
  λ s, (Ok tt, set_files (<[path := content]> (files s)) s).

Definition isUsedDocker (r : Reloader) : bool :=
  match host r with
  | Some h => bool_decide (config.Host_Docker h ≠ "")
  | None => false
  end.

(** [os.Stat("/.dockerenv")] came back without an error. *)
Definition isOnDockerContainer (s : State) : bool :=
  bool_decide (is_Some (files s !! dockerenvPath)).

Definition IsEnabledReload (s : State) : bool :=
  if negb (isUsedDocker (rl s)) then true
  else if negb (isOnDockerContainer s) then true
  else false.

(** [r.host.Docker] *)
Definition host_Docker : M string :=
  let* h := deref host in ret (config.Host_Docker h).

Definition runBuildHookCommandInGoContext (cmd : string) : M unit :=
  let gocmd := NewGoCommand in
  let* b := deref build in
  let env := env_list (ExpandPath sys) (Build_Env b) in
  let gocmd := Go_AddEnv env gocmd in
  try ("failed to run command " +:+ cmd)
    (call (EvGoRun gocmd (strings.Split cmd))).

Definition runBuildInitCommands : M unit :=
  let* b := deref build in
  for_range (Build_Init b) (λ cmd,
    Println ("Running: " +:+ cmd) >>
    try "failed to run command in build.init"
      (runBuildHookCommandInGoContext cmd)).

Definition runBuildBeforeCommands : M unit :=
  let* b := deref build in
  for_range (Build_Before b) (λ cmd,
    Println ("Running: " +:+ cmd) >>
    try "failed to run command in build.before"
      (runBuildHookCommandInGoContext cmd)).

Definition runBuildAfterCommands : M unit :=
  let* b := deref build in
  for_range (Build_After b) (λ cmd,
    Println ("Running: " +:+ cmd) >>
    try "failed to run command in build.after"
      (runBuildHookCommandInGoContext cmd)).

Definition readPID : M Z :=
  let* file := try "failed to read pid file" (ReadFile pidPath) in
  match strconv.ParseInt file with
  | inl e => λ s, (Err (Errorf "failed to parse pid number" (NumError e)), s)
  | inr pid => ret pid
  end.

Definition writePID : M unit :=
  let pid := Getpid sys in
  try "failed to write pid file" (WriteFile pidPath (fmt.Sprint pid)).

Definition stopCurrentProcess : M unit :=
  let* c := gets (λ s, cmd (rl s)) in
  match c with
  | None => ret tt
  | Some c =>
      try "failed to stop process" (call (EvStop c)) >>
      λ s, (Ok tt, set_cmd None s)
  end.

Definition reload : M unit :=
  Println "Restarting..." >>
  try "failed to stop current process" stopCurrentProcess >>
  let execCmd := NewCommand buildPath in
  let* rn := gets (λ s, run (rl s)) in
  let execCmd :=
    match rn with
    | Some rn => Command_AddEnv (env_list id (config.Run_Env rn)) execCmd
    | None => execCmd
    end in
  (λ s, (Ok tt, set_cmd (Some execCmd) s)) >>
  emit (EvRunAsync execCmd).

(** [signal.Notify(sig, syscall.SIGHUP)] and the serving goroutine. *)
Definition watchReloadSignal : M unit := emit (EvNotify "SIGHUP").

(** One round of that goroutine: a SIGHUP arrived, [go r.reload()];
    nobody looks at what [reload] returns. *)
Definition onSIGHUP : M unit :=
  λ s, (Ok tt, snd (reload s)).

Definition xbuildRebirth : M unit :=
  let cmdFile := filepath.Join [rebirthDir sys; "cmd"; "rebirth"; "main.go"] in
  let gocmd := NewGoCommand in
  let* container := host_Docker in
  let gocmd := EnableCrossBuild container gocmd in
  let gocmd := SetDir (rebirthDir sys) gocmd in
  let* b := gets (λ s, build (rl s)) in
  let gocmd :=
    match b with
    | Some b => Go_AddEnv (env_list (ExpandPath sys) (Build_Env b)) gocmd
    | None => gocmd
    end in
  try "failed to cross build rebirth"
    (call (EvGoBuild gocmd
             ["-o"; filepath.Join [cwd sys; dockerRebirthPath]; cmdFile])).

Definition xbuild (target source : string) : M unit :=
  Println "Building...." >>
  try "failed to run build.before commands" runBuildBeforeCommands >>
  let gocmd := NewGoCommand in
  let* b := gets (λ s, build (rl s)) in
  let gocmd :=
    match b with
    | Some b => Go_AddEnv (env_list (ExpandPath sys) (Build_Env b)) gocmd
    | None => gocmd
    end in
  let* cross := gets (λ s, isUsedDocker (rl s) && negb (isOnDockerContainer s)) in
  let* gocmd :=
    if cross then
      let* container := host_Docker in ret (EnableCrossBuild container gocmd)
    else ret gocmd in
  try "failed to build" (call (EvGoBuild gocmd ["-o"; target; source])) >>
  try "failed to run build.after commands" runBuildAfterCommands.

Definition sendReloadingSignal : M unit :=
  let* used := gets (λ s, isUsedDocker (rl s)) in
  if used then
    let* pid := try "failed to read pid" readPID in
    let* containerName := host_Docker in
    try "failed to exec command on docker container"
      (call (EvDockerRun containerName ["kill"; "-HUP"; fmt.Sprint pid]))
  else
    try "failed to reload" reload.

Definition Reload : M unit :=
  try "failed to build on host" (xbuild buildPath ".") >>
  try "failed to send reloading signal" sendReloadingSignal.

Definition Close : M unit :=
  let* used := gets (λ s, isUsedDocker (rl s)) in
  if negb used then ret tt
  else
    let* inside := gets isOnDockerContainer in
    if inside then
      Println "stop current process..." >>
      try "failed to stop current process" stopCurrentProcess
    else
      let* pid := try "failed to read pid" readPID in
      let* containerName := host_Docker in
      Println "stop hot reloader on container..." >>
      try "failed to exec command on docker container"
        (call (EvDockerRun containerName ["kill"; "-QUIT"; fmt.Sprint pid])).

(** The three arms of [Run]'s [if / else if / else]. *)
Definition Run_in_container : M unit :=
  try "failed to write pid" writePID >>
  try "failed to reload" reload.

Definition Run_on_host_for_container : M unit :=
  try "failed to cross compile for rebirth" xbuildRebirth >>
  try "failed to build.init commands" runBuildInitCommands >>
  try "failed to build on host" (xbuild buildPath ".") >>
  let* container := host_Docker in
  emit (EvGoDockerRun container [dockerRebirthPath]).

Definition Run_on_localhost : M unit :=
  try "failed to build.init commands" runBuildInitCommands >>
  try "failed to build on host" (xbuild buildPath ".") >>
  try "failed to reload" reload.

(** [Run] up to the point where the source starts to sleep for good:
    [Ok tt] says the start-up went through and the process now waits
    for signals; the source never returns from there. *)
Definition Run : M unit :=
  (let* enabled := gets IsEnabledReload in
   if negb enabled then Run_in_container
   else
     let* delegating :=
       gets (λ s, isUsedDocker (rl s) && negb (isOnDockerContainer s)) in
     if delegating then Run_on_host_for_container
     else Run_on_localhost) >>
  watchReloadSignal.

End Reloader.

(** ** The spec's Topology Mode, and the arms of [Run] *)

Inductive Mode := Local | HostDelegating | InsideRemote.

#[global] Instance Mode_eq_dec : EqDecision Mode.
Proof. solve_decision. Defined.

(** The spec's table: no remote target gives Local whatever the marker;
    a remote target gives InsideRemote with the marker and
    HostDelegating without it. *)
Definition topology (remote marker : bool) : Mode :=
  match remote, marker with
  | false, _ => Local
  | true, true => InsideRemote
  | true, false => HostDelegating
  end.

Inductive Arm := ArmInContainer | ArmOnHostForContainer | ArmOnLocalhost.

(** The arm [Run] takes, by the conditions of its [if / else if / else]. *)
Definition Run_arm (s : State) : Arm :=
  if negb (IsEnabledReload s) then ArmInContainer
  else if isUsedDocker (rl s) && negb (isOnDockerContainer s)
       then ArmOnHostForContainer
       else ArmOnLocalhost.

Definition arm_body (sys : Sys) (a : Arm) : M unit :=
  match a with
  | ArmInContainer => Run_in_container sys
  | ArmOnHostForContainer => Run_on_host_for_container sys
  | ArmOnLocalhost => Run_on_localhost sys
  end.

Definition arm_of_mode (m : Mode) : Arm :=
  match m with
  | Local => ArmOnLocalhost
  | HostDelegating => ArmOnHostForContainer
  | InsideRemote => ArmInContainer
  end.

(** ** The three hook phases under one name *)

Inductive Phase := PhaseInit | PhaseBefore | PhaseAfter.

Definition runPhase (sys : Sys) (ph : Phase) : M unit :=
  match ph with
  | PhaseInit => runBuildInitCommands sys
  | PhaseBefore => runBuildBeforeCommands sys
  | PhaseAfter => runBuildAfterCommands sys
  end.

Definition phase_commands (ph : Phase) (b : Build) : list string :=
  match ph with
  | PhaseInit => Build_Init b
  | PhaseBefore => Build_Before b
  | PhaseAfter => Build_After b
  end.

Definition phase_failure (ph : Phase) : string :=
  match ph with
  | PhaseInit => "failed to run command in build.init"
  | PhaseBefore => "failed to run command in build.before"
  | PhaseAfter => "failed to run command in build.after"
  end.

(** ** What the log gains, step by step *)

(** The toolchain command of a hook: a fresh one with the build
    environment added. *)
Definition hook_gocmd (sys : Sys) (b : Build) : GoCommand :=
  Go_AddEnv (env_list (ExpandPath sys) (Build_Env b)) NewGoCommand.

(** One hook command: its announcement and its run. *)
Definition hook_events (sys : Sys) (b : Build) (cmd : string) : list Event :=
  [EvStdout ("Running: " +:+ cmd); EvGoRun (hook_gocmd sys b) (strings.Split cmd)].

Definition hooks_events (sys : Sys) (b : Build) (cmds : list string) : list Event :=
  flat_map (hook_events sys b) cmds.

(** The cross-build target of [xbuild]: the container, on the host of a
    configured container only. *)
Definition cross_target (s : State) : option string :=
  if isUsedDocker (rl s) && negb (isOnDockerContainer s)
  then config.Host_Docker <$> host (rl s)
  else None.

Definition build_gocmd (sys : Sys) (b : Build) (cross : option string) : GoCommand :=
  match cross with
  | Some container => EnableCrossBuild container (hook_gocmd sys b)
  | None => hook_gocmd sys b
  end.

(** The compile step alone. *)
Definition compile_event (sys : Sys) (b : Build) (cross : option string) : Event :=
  EvGoBuild (build_gocmd sys b cross) ["-o"; buildPath sys; "."].

(** A whole [xbuild(buildPath, ".")] that went through. *)
Definition build_events (sys : Sys) (b : Build) (cross : option string) : list Event :=
  EvStdout "Building...." :: hooks_events sys b (Build_Before b)
    ++ compile_event sys b cross :: hooks_events sys b (Build_After b).

(** The command [reload] starts. *)
Definition program (sys : Sys) (r : Reloader) : Command :=
  match run r with
  | Some rn => Command_AddEnv (env_list id (config.Run_Env rn)) (NewCommand (buildPath sys))
  | None => NewCommand (buildPath sys)
  end.

Definition stop_events (r : Reloader) : list Event :=
  match cmd r with
  | Some c => [EvStop c]
  | None => []
  end.

(** A whole [reload()] that went through: stop what runs, start anew. *)
Definition restart_events (sys : Sys) (r : Reloader) : list Event :=
  EvStdout "Restarting..." :: stop_events r ++ [EvRunAsync (program sys r)].

Definition is_toolchain_event (ev : Event) : bool :=
  match ev with
  | EvGoRun _ _ | EvGoBuild _ _ => true
  | _ => false
  end.

Definition is_process_event (ev : Event) : bool :=
  match ev with
  | EvStop _ | EvRunAsync _ => true
  | _ => false
  end.

Definition is_remote_event (ev : Event) : bool :=
  match ev with
  | EvDockerRun _ _ | EvGoDockerRun _ _ => true
  | _ => false
  end.

(** The body the three hook loops share, up to the message of the
    phase. *)
Definition hook_body (sys : Sys) (msg : string) (cmd : string) : M unit :=
  Println ("Running: " +:+ cmd) >>
  try msg (runBuildHookCommandInGoContext sys cmd).

(** [s'] is [s] with more events in the log, all of them in [P]. *)
Definition grows (P : Event → Prop) (s s' : State) : Prop :=
  ∃ evs, s' = set_log (log s ++ evs) s ∧ Forall P evs.

(** Whatever [m] returns, it moves the state along [R]. *)
Definition stays (R : State → State → Prop) {A} (m : M A) : Prop :=
  ∀ s, R s (snd (m s)).

(** Events of building: neither a child stopped or started nor a remote
    command. *)
Definition quiet (ev : Event) : Prop :=
  is_process_event ev = false ∧ is_remote_event ev = false.

(** Events of a build and nothing else: announcements and toolchain
    runs. *)
Definition is_build_event (ev : Event) : bool :=
  match ev with
  | EvStdout _ | EvGoRun _ _ | EvGoBuild _ _ => true
  | _ => false
  end.

(** Events that bring something to life: a child, the peer supervisor,
    the signal watch. *)
Definition is_launch_event (ev : Event) : bool :=
  match ev with
  | EvRunAsync _ | EvGoDockerRun _ _ | EvNotify _ => true
  | _ => false
  end.


(** What [Close] may do: announce, stop the child, run a remote
    command. *)
Definition is_closing_event (ev : Event) : bool :=
  match ev with
  | EvStdout _ | EvStop _ | EvDockerRun _ _ => true
  | _ => false
  end.

Definition is_stdout (ev : Event) : bool :=
  match ev with
  | EvStdout _ => true
  | _ => false
  end.

(** [s'] is [s] with more events in the log, all of them in [P], and
    possibly another tracked child; the configuration and the files are
    those of [s]. *)
Definition drift (P : Event → Prop) (s s' : State) : Prop :=
  host (rl s') = host (rl s)
  ∧ build (rl s') = build (rl s)
  ∧ run (rl s') = run (rl s)
  ∧ files s' = files s
  ∧ ∃ evs, log s' = log s ++ evs ∧ Forall P evs.



(** The serving goroutine of [watchReloadSignal] over [n] signals, one
    [reload] after the other. *)
Fixpoint signals (sys : Sys) (n : nat) (s : State) : State :=
  match n with
  | O => s
  | S n' => signals sys n' (snd (onSIGHUP sys s))
  end.

(** A restart that finds the program itself running. *)
Definition again_events (sys : Sys) (r : Reloader) : list Event :=
  [EvStdout "Restarting..."; EvStop (program sys r); EvRunAsync (program sys r)].

Definition is_Ok {A} (r : Res A) : bool :=
  match r with
  | Ok _ => true
  | _ => false
  end.

(** From [s] to [s'] nothing was brought to life and the tracked child
    is the same. *)
Definition nothing_launched (s s' : State) : Prop :=
  cmd (rl s') = cmd (rl s)
  ∧ ∃ evs, log s' = log s ++ evs ∧ Forall (λ ev, is_launch_event ev = false) evs.

(** When [m] does not return normally, it has moved the state along
    [R]. *)
Definition fails (R : State → State → Prop) {A} (m : M A) : Prop :=
  ∀ s, is_Ok (fst (m s)) = false → R s (snd (m s)).

(** [R] for the states that satisfy [C]. *)
Definition guarded (C : State → Prop) (R : State → State → Prop) (s s' : State) : Prop :=
  C s → R s s'.

(** The receiver without its remote target. *)
Definition without_host (r : Reloader) : Reloader :=
  {| host := None; cmd := cmd r; build := build r; run := run r |}.

(** ** Sample surroundings *)

Module Sample.

(** Every external call succeeds. *)
Definition calm : Sys :=
  {| Getpid := 4711; cwd := "/work"; rebirthDir := "/go/src/rebirth";
     ExpandPath := id; outcome := λ _, None |}.

Definition exit1 : error := ExternalError "exit status 1".

(** The hook [false] fails whenever it is run; all else succeeds. *)
Definition false_fails : Sys :=
  {| Getpid := 4711; cwd := "/work"; rebirthDir := "/go/src/rebirth";
     ExpandPath := id;
     outcome := λ l,
       match last l with
       | Some (EvGoRun _ args) =>
           if bool_decide (args = ["false"]) then Some exit1 else None
       | _ => None
       end |}.

(** Stopping a process fails; all else succeeds. *)
Definition stop_fails : Sys :=
  {| Getpid := 4711; cwd := "/work"; rebirthDir := "/go/src/rebirth";
     ExpandPath := id;
     outcome := λ l,
       match last l with
       | Some (EvStop _) => Some exit1
       | _ => None
       end |}.

(** The compiler fails; all else succeeds. *)
Definition compile_fails : Sys :=
  {| Getpid := 4711; cwd := "/work"; rebirthDir := "/go/src/rebirth";
     ExpandPath := id;
     outcome := λ l,
       match last l with
       | Some (EvGoBuild _ _) => Some exit1
       | _ => None
       end |}.

Definition hooks : Build :=
  {| Build_Env := {[ "GOPATH" := "/go" ]};
     Build_Init := ["echo hi"];
     Build_Before := ["go generate"];
     Build_After := [] |}.

Definition three : Build :=
  {| Build_Env := ∅;
     Build_Init := ["echo one"; "false"; "echo three"];
     Build_Before := [];
     Build_After := [] |}.

Definition web : config.Run := {| config.Run_Env := {[ "PORT" := "80" ]} |}.

Definition old : Command :=
  {| Command_path := "/work/.rebirth/program"; Command_env := ["PORT=80"] |}.

Definition app : config.Host := {| config.Host_Docker := "app" |}.

(** No remote target, nothing running yet, no files. *)
Definition local : State :=
  {| rl := {| host := None; cmd := None; build := Some hooks; run := Some web |};
     files := ∅; log := [] |}.

(** No remote target, a child running. *)
Definition local_running : State :=
  {| rl := {| host := None; cmd := Some old; build := Some hooks; run := Some web |};
     files := ∅; log := [] |}.

(** Remote target [app], inside it (the marker is there), nothing
    running yet. *)
Definition inside : State :=
  {| rl := {| host := Some app; cmd := None; build := Some hooks; run := Some web |};
     files := {[ dockerenvPath := "" ]}; log := [] |}.

(** Inside the remote target with a child running. *)
Definition inside_running : State :=
  {| rl := {| host := Some app; cmd := Some old; build := Some hooks; run := Some web |};
     files := {[ dockerenvPath := ""; pidPath := "4711" ]}; log := [] |}.

(** Remote target [app], on the host, the peer's pid on record. *)
Definition delegating : State :=
  {| rl := {| host := Some app; cmd := None; build := Some hooks; run := Some web |};
     files := {[ pidPath := "4711" ]}; log := [] |}.

(** [inside] with the remote target taken out of the configuration. *)
Definition inside_twin : State :=
  {| rl := without_host (rl inside); files := files inside; log := [] |}.

Definition three_hooks : State :=
  {| rl := {| host := None; cmd := None; build := Some three; run := None |};
     files := ∅; log := [] |}.

(** The text of a configuration file with a build section. *)
Definition yml : string :=
  "build: {init: [echo hi], before: [go generate], after: [go vet], env: {GOPATH: /go}}".

(** A configuration document with a build section:
    [build: { init: [echo hi], before: [go generate], after: [go vet],
              env: { GOPATH: /go } }]. *)
Definition doc : config.Yaml :=
  config.YMap
    [("build",
      config.YMap
        [("init", config.YSeq [config.YScalar "echo hi"]);
         ("before", config.YSeq [config.YScalar "go generate"]);
         ("after", config.YSeq [config.YScalar "go vet"]);
         ("env", config.YMap [("GOPATH", config.YScalar "/go")])])].

(** The same document without the three lists. *)
Definition doc_env_only : config.Yaml :=
  config.YMap
    [("build",
      config.YMap [("env", config.YMap [("GOPATH", config.YScalar "/go")])])].

(** No build section, no remote target. *)
Definition bare : State :=
  {| rl := {| host := None; cmd := None; build := None; run := None |};
     files := ∅; log := [] |}.

(** On the host, the pid file ends in a newline. *)
Definition delegating_newline : State :=
  {| rl := rl delegating;
     files := {[ pidPath := String "4" (String "2" (String "010" EmptyString)) ]};
     log := [] |}.

(** On the host, the pid file holds [-1]. *)
Definition delegating_minus_one : State :=
  {| rl := rl delegating; files := {[ pidPath := "-1" ]}; log := [] |}.

(** A reader that knows the one file. *)
Definition read_yaml (file : string) : option config.Yaml :=
  if bool_decide (file = yml) then Some doc else None.

End Sample.

(** ** The library functions on sample inputs *)

Example Sprint_4711 : fmt.Sprint 4711 = "4711". Proof. reflexivity. Qed.
Example Sprint_0 : fmt.Sprint 0 = "0". Proof. reflexivity. Qed.
Example Sprint_neg : fmt.Sprint (-120) = "-120". Proof. reflexivity. Qed.
Example ParseInt_4711 : strconv.ParseInt "4711" = inr 4711. Proof. reflexivity. Qed.
Example ParseInt_plus : strconv.ParseInt "+7" = inr 7. Proof. reflexivity. Qed.
Example ParseInt_max :
  strconv.ParseInt "9223372036854775807" = inr (2 ^ 63 - 1).
Proof. reflexivity. Qed.
Example ParseInt_over :
  strconv.ParseInt "9223372036854775808"
  = inl (strconv.mkNumError "ParseInt" "9223372036854775808" strconv.ErrRange).
Proof. reflexivity. Qed.
Example ParseInt_huge :
  strconv.ParseInt "99999999999999999999999"
  = inl (strconv.mkNumError "ParseInt" "99999999999999999999999" strconv.ErrRange).
Proof. reflexivity. Qed.
Example ParseInt_min :
  strconv.ParseInt "-9223372036854775808" = inr (- 2 ^ 63).
Proof. reflexivity. Qed.
Example ParseInt_empty :
  strconv.ParseInt "" = inl (strconv.mkNumError "ParseInt" "" strconv.ErrSyntax).
Proof. reflexivity. Qed.
Example ParseInt_trailing_space :
  strconv.ParseInt "12 " = inl (strconv.mkNumError "ParseInt" "12 " strconv.ErrSyntax).
Proof. reflexivity. Qed.

Example Split_words : strings.Split "go  generate ./..." = ["go"; ""; "generate"; "./..."].
Proof. reflexivity. Qed.
Example Split_empty : strings.Split "" = [""].
Proof. reflexivity. Qed.
Example pidPath_value : pidPath = ".rebirth/server.pid".
Proof. reflexivity. Qed.
Example dockerenvPath_value : dockerenvPath = "/.dockerenv".
Proof. reflexivity. Qed.
Example buildPath_value : buildPath Sample.calm = "/work/.rebirth/program".
Proof. reflexivity. Qed.

(** ** Printing a pid and parsing it back *)

Section Conv.
Import strconv fmt.

Lemma digit_val_byte d : 0 <= d <= 9 → digit_val (digit_byte d) = Some d.
Proof.
intros Hd.
assert (Hc : d = 0 ∨ d = 1 ∨ d = 2 ∨ d = 3 ∨ d = 4 ∨ d = 5 ∨ d = 6
             ∨ d = 7 ∨ d = 8 ∨ d = 9) by lia.
repeat (destruct Hc as [-> | Hc]; [reflexivity |]). subst d. reflexivity.
Qed.

Lemma maxUint64_val : maxUint64 = 18446744073709551615.
Proof. reflexivity. Qed.

Lemma parse_loop_digit n d s :
0 <= d <= 9 → 0 <= n → n * 10 + d <= maxUint64 →
parse_loop n (String (digit_byte d) s) = parse_loop (n * 10 + d) s.
Proof.
intros Hd Hn Hmax. cbn [parse_loop]. rewrite digit_val_byte by done.
rewrite maxUint64_val in *.
change (18446744073709551615 / 10 + 1) with 1844674407370955162.
change (2 ^ 64) with 18446744073709551616.
rewrite Z.mod_small by lia.
destruct (Z.leb_spec 1844674407370955162 n); [lia |].
destruct (Z.ltb_spec (n * 10 + d) (n * 10)); [lia |].
destruct (Z.ltb_spec 18446744073709551615 (n * 10 + d)); [lia |].
reflexivity.
Qed.

Lemma log2_div10 u : 10 <= u → Z.log2 (u / 10) < Z.log2 u.
Proof.
intros Hu.
assert (H10 : 0 < u / 10) by (apply Z.div_str_pos; lia).
apply Z.log2_lt_pow2; [done |].
destruct (Z.log2_spec u) as [Hlo Hhi]; [lia |].
assert (Hk : 0 <= Z.log2 u) by apply Z.log2_nonneg.
rewrite Z.pow_succ_r in Hhi by done.
apply Z.div_lt_upper_bound; lia.
Qed.

Lemma parse_fmt_digits rounds : ∀ u buf,
0 <= u <= maxUint64 → Z.log2 u <= Z.of_nat rounds →
parse_loop 0 (fmt_digits rounds u buf) = parse_loop u buf.
Proof.
induction rounds as [| r IH]; intros u buf Hu Hlog.
- assert (u < 2).
  { destruct (Z.le_gt_cases u 0); [lia |].
    apply (Z.log2_lt_pow2 u 1); lia. }
  cbn [fmt_digits]. rewrite Z.mod_small by lia.
  rewrite parse_loop_digit; rewrite ?maxUint64_val in *; try lia.
  f_equal; lia.
- cbn [fmt_digits]. destruct (Z.ltb_spec u 10) as [Hlt | Hge].
  + rewrite parse_loop_digit; rewrite ?maxUint64_val in *; try lia.
    f_equal; lia.
  + pose proof (log2_div10 u Hge) as Hl.
    pose proof (Z.div_mod u 10 ltac:(lia)) as Hdm.
    pose proof (Z.mod_pos_bound u 10 ltac:(lia)) as Hm.
    assert (0 <= u / 10) by (apply Z.div_pos; lia).
    rewrite IH by (rewrite ?maxUint64_val in *; lia).
    rewrite parse_loop_digit; rewrite ?maxUint64_val in *; try lia.
    f_equal; lia.
Qed.

Lemma fmt_digits_head rounds : ∀ u buf,
0 <= u → ∃ d rest, 0 <= d <= 9 ∧ fmt_digits rounds u buf = String (digit_byte d) rest.
Proof.
induction rounds as [| r IH]; intros u buf Hu; cbn [fmt_digits].
- exists (u mod 10), buf. split; [| done].
  pose proof (Z.mod_pos_bound u 10 ltac:(lia)). lia.
- destruct (Z.ltb_spec u 10).
  + exists u, buf. split; [lia | done].
  + apply IH. apply Z.div_pos; lia.
Qed.

Lemma ParseInt_Sprint pid :
0 <= pid < 2 ^ 63 → ParseInt (Sprint pid) = inr pid.
Proof.
intros Hpid. change (2 ^ 63) with 9223372036854775808 in Hpid.
unfold Sprint. destruct (Z.ltb_spec pid 0); [lia |].
set (rounds := Z.to_nat (Z.log2 pid)).
destruct (fmt_digits_head rounds pid "" ltac:(lia)) as (d & rest & Hd & Heq).
assert (Hloop : parse_loop 0 (fmt_digits rounds pid "") = inr pid).
{ rewrite parse_fmt_digits; [done | rewrite maxUint64_val; lia |].
  subst rounds. rewrite Z2Nat.id; [lia | apply Z.log2_nonneg]. }
unfold ParseInt. rewrite Heq in *.
assert (Hplus : Ascii.eqb (digit_byte d) "+" = false).
{ assert (Hc : d = 0 ∨ d = 1 ∨ d = 2 ∨ d = 3 ∨ d = 4 ∨ d = 5 ∨ d = 6
             ∨ d = 7 ∨ d = 8 ∨ d = 9) by lia.
  repeat (destruct Hc as [-> | Hc]; [reflexivity |]). subst d. reflexivity. }
assert (Hminus : Ascii.eqb (digit_byte d) "-" = false).
{ assert (Hc : d = 0 ∨ d = 1 ∨ d = 2 ∨ d = 3 ∨ d = 4 ∨ d = 5 ∨ d = 6
             ∨ d = 7 ∨ d = 8 ∨ d = 9) by lia.
  repeat (destruct Hc as [-> | Hc]; [reflexivity |]). subst d. reflexivity. }
rewrite Hplus, Hminus. unfold ParseUint. rewrite Hloop.
change (2 ^ 63) with 9223372036854775808. cbn [negb andb].
destruct (Z.leb_spec 9223372036854775808 pid); [lia | reflexivity].
Qed.
End Conv.

(** ** Reasoning about the monad *)

Lemma bind_Ok_inv {A B} (m : M A) (k : A → M B) s b s' :
  bind m k s = (Ok b, s') → ∃ a s1, m s = (Ok a, s1) ∧ k a s1 = (Ok b, s').
Proof.
  unfold bind. destruct (m s) as [[a | e |] s1]; intros H; try discriminate.
  eauto.
Qed.

Lemma bind_Ok {A B} (m : M A) (k : A → M B) s a s1 :
  m s = (Ok a, s1) → bind m k s = k a s1.
Proof. unfold bind. intros ->. reflexivity. Qed.

Lemma bind_Err {A B} (m : M A) (k : A → M B) s e s1 :
  m s = (Err e, s1) → bind m k s = (Err e, s1).
Proof. unfold bind. intros ->. reflexivity. Qed.

Lemma try_Ok_inv {A} msg (m : M A) s a s' :
  try msg m s = (Ok a, s') → m s = (Ok a, s').
Proof.
  unfold try. destruct (m s) as [[a' | e |] s1]; intros H; try discriminate.
  exact H.
Qed.

Lemma try_Ok {A} msg (m : M A) s a s' :
  m s = (Ok a, s') → try msg m s = (Ok a, s').
Proof. unfold try. intros ->. reflexivity. Qed.

Lemma try_Err {A} msg (m : M A) s e s' :
  m s = (Err e, s') → try msg m s = (Err (Errorf msg e), s').
Proof. unfold try. intros ->. reflexivity. Qed.

Lemma call_eq sys ev s :
  call sys ev s =
  (match outcome sys (log s ++ [ev]) with
   | None => Ok tt
   | Some e => Err e
   end, set_log (log s ++ [ev]) s).
Proof. reflexivity. Qed.

Lemma set_log_log s : set_log (log s) s = s.
Proof. destruct s; reflexivity. Qed.

Lemma set_log_set_log l l' s : set_log l (set_log l' s) = set_log l s.
Proof. reflexivity. Qed.

Lemma set_log_app_nil s : set_log (log s ++ []) s = s.
Proof. rewrite app_nil_r. apply set_log_log. Qed.

(** ** The identity store *)

Lemma pidPath_not_dockerenv : pidPath ≠ dockerenvPath.
Proof. discriminate. Qed.

Lemma writePID_Ok_inv sys s s' :
  writePID sys s = (Ok tt, s') →
  s' = set_files (<[pidPath := fmt.Sprint (Getpid sys)]> (files s))
         (set_log (log s ++ [EvWriteFile pidPath (fmt.Sprint (Getpid sys))]) s).
Proof.
  unfold writePID, WriteFile. intros H. apply try_Ok_inv in H.
  apply bind_Ok_inv in H as ([] & s1 & Hcall & Hset).
  rewrite call_eq in Hcall.
  destruct (outcome sys _); inversion Hcall; subst s1.
  inversion Hset. reflexivity.
Qed.

Lemma readPID_present s file :
  files s !! pidPath = Some file →
  readPID s =
  (match strconv.ParseInt file with
   | inl e => Err (Errorf "failed to parse pid number" (NumError e))
   | inr pid => Ok pid
   end, s).
Proof.
  intros Hf. unfold readPID, bind, try, ReadFile. rewrite Hf.
  destruct (strconv.ParseInt file); reflexivity.
Qed.

Lemma readPID_absent s :
  files s !! pidPath = None →
  readPID s =
  (Err (Errorf "failed to read pid file" (PathError "open" pidPath ENOENT)), s).
Proof. intros Hf. unfold readPID, bind, try, ReadFile. rewrite Hf. reflexivity. Qed.

Lemma readPID_state s : snd (readPID s) = s.
Proof.
  destruct (files s !! pidPath) as [file |] eqn:Hf.
  - rewrite (readPID_present _ _ Hf). reflexivity.
  - rewrite (readPID_absent _ Hf). reflexivity.
Qed.

(** C7: what [writePID] stored, [readPID] returns, for every pid an
    [int] can hold from 0 up; and with no pid file [readPID] fails with
    the read error ("failed to read pid file", the path not found),
    which is never the parse error. *)
Theorem pid_roundtrip (sys : Sys) :
  (∀ s s', 0 <= Getpid sys < 2 ^ 63 →
     writePID sys s = (Ok tt, s') →
     readPID s' = (Ok (Getpid sys), s'))
  ∧ (∀ s, files s !! pidPath = None →
       readPID s =
         (Err (Errorf "failed to read pid file" (PathError "open" pidPath ENOENT)), s)
       ∧ ∀ e, fst (readPID s) ≠ Err (Errorf "failed to parse pid number" e)).
Proof.
  split.
  - intros s s' Hpid Hw. apply writePID_Ok_inv in Hw. subst s'.
    erewrite readPID_present; [| apply lookup_insert_eq].
    rewrite ParseInt_Sprint by done. reflexivity.
  - intros s Hf. rewrite (readPID_absent _ Hf). split; [done |].
    intros e. cbn. discriminate.
Qed.

Lemma pid_roundtrip_witness :
  readPID (snd (writePID Sample.calm Sample.inside))
    = (Ok 4711, snd (writePID Sample.calm Sample.inside))
  ∧ readPID Sample.local
    = (Err (Errorf "failed to read pid file" (PathError "open" pidPath ENOENT)),
       Sample.local).
Proof.
  split.
  - apply (proj1 (pid_roundtrip Sample.calm) Sample.inside).
    + cbn. lia.
    + reflexivity.
  - apply (proj2 (pid_roundtrip Sample.calm)). reflexivity.
Defined.

(** ** Stopping the child *)

(** C10: [stopCurrentProcess] with nothing tracked succeeds and changes
    nothing; when stopping fails the error comes back and the record
    stays as it was; only a stop that went through clears the record,
    and stopping again right after is the trivial case. *)
Theorem stopCurrentProcess_atomic (sys : Sys) (s : State) :
  (cmd (rl s) = None → stopCurrentProcess sys s = (Ok tt, s))
  ∧ (∀ c e, cmd (rl s) = Some c →
       outcome sys (log s ++ [EvStop c]) = Some e →
       stopCurrentProcess sys s
         = (Err (Errorf "failed to stop process" e), set_log (log s ++ [EvStop c]) s)
       ∧ cmd (rl (snd (stopCurrentProcess sys s))) = Some c)
  ∧ (∀ c, cmd (rl s) = Some c →
       outcome sys (log s ++ [EvStop c]) = None →
       let s' := set_cmd None (set_log (log s ++ [EvStop c]) s) in
       stopCurrentProcess sys s = (Ok tt, s')
       ∧ cmd (rl s') = None
       ∧ stopCurrentProcess sys s' = (Ok tt, s')).
Proof.
  unfold stopCurrentProcess, bind, gets, try. repeat split.
  - intros ->. reflexivity.
  - rewrite H, call_eq, H0. reflexivity.
  - rewrite H, call_eq, H0. cbn. exact H.
  - rewrite H, call_eq, H0. reflexivity.
Qed.

Lemma stopCurrentProcess_atomic_witness :
  stopCurrentProcess Sample.calm Sample.local = (Ok tt, Sample.local)
  ∧ cmd (rl (snd (stopCurrentProcess Sample.stop_fails Sample.local_running)))
    = Some Sample.old
  ∧ cmd (rl (snd (stopCurrentProcess Sample.calm Sample.local_running))) = None.
Proof.
  split; [| split].
  - apply (proj1 (stopCurrentProcess_atomic Sample.calm Sample.local)).
    reflexivity.
  - apply (proj1 (proj2 (stopCurrentProcess_atomic Sample.stop_fails
                           Sample.local_running)) Sample.old Sample.exit1);
      reflexivity.
  - destruct (proj2 (proj2 (stopCurrentProcess_atomic Sample.calm
                              Sample.local_running)) Sample.old) as (Hs & _ & _);
      [reflexivity | reflexivity |].
    rewrite Hs. reflexivity.
Defined.

(** ** Hook phases *)

Section Hooks.

Context (sys : Sys).

Lemma hook_eq cmd s b :
  build (rl s) = Some b →
  runBuildHookCommandInGoContext sys cmd s =
  (match outcome sys (log s ++ [EvGoRun (hook_gocmd sys b) (strings.Split cmd)]) with
   | None => Ok tt
   | Some e => Err (Errorf ("failed to run command " +:+ cmd) e)
   end, set_log (log s ++ [EvGoRun (hook_gocmd sys b) (strings.Split cmd)]) s).
Proof.
  intros Hb. unfold runBuildHookCommandInGoContext, bind, deref, try.
  rewrite Hb, call_eq. fold (hook_gocmd sys b).
  destruct (outcome sys _); reflexivity.
Qed.

Lemma hook_step_eq msg cmd s b :
  build (rl s) = Some b →
  hook_body sys msg cmd s =
  (match outcome sys (log s ++ hook_events sys b cmd) with
   | None => Ok tt
   | Some e => Err (Errorf msg (Errorf ("failed to run command " +:+ cmd) e))
   end, set_log (log s ++ hook_events sys b cmd) s).
Proof.
  intros Hb. unfold hook_body, Println, hook_events.
  erewrite bind_Ok; [| reflexivity].
  unfold try at 1. rewrite (hook_eq cmd _ b) by exact Hb.
  cbn [set_log log rl files]. rewrite <- app_assoc. cbn [app].
  destruct (outcome sys _); reflexivity.
Qed.

Lemma runPhase_eq ph s b :
  build (rl s) = Some b →
  runPhase sys ph s = for_range (phase_commands ph b) (hook_body sys (phase_failure ph)) s.
Proof.
  intros Hb.
  destruct ph; cbn [runPhase];
    unfold runBuildInitCommands, runBuildBeforeCommands, runBuildAfterCommands;
    unfold bind at 1, deref; rewrite Hb; reflexivity.
Qed.

Lemma runPhase_nil ph s :
  build (rl s) = None → runPhase sys ph s = (Panic, s).
Proof.
  intros Hb.
  destruct ph; cbn [runPhase];
    unfold runBuildInitCommands, runBuildBeforeCommands, runBuildAfterCommands;
    unfold bind at 1, deref; rewrite Hb; reflexivity.
Qed.

Lemma hooks_events_cons b c cmds :
  hooks_events sys b (c :: cmds) = hook_events sys b c ++ hooks_events sys b cmds.
Proof. reflexivity. Qed.

(** A loop that came to its end ran every command, in order. *)
Lemma hooks_loop_Ok_inv msg b cmds : ∀ s s',
  build (rl s) = Some b →
  for_range cmds (hook_body sys msg) s = (Ok tt, s') →
  s' = set_log (log s ++ hooks_events sys b cmds) s.
Proof.
  induction cmds as [| c cmds IH]; intros s s' Hb H.
  - inversion H. cbn. rewrite app_nil_r. destruct s'; reflexivity.
  - cbn [for_range] in H. apply bind_Ok_inv in H as ([] & s1 & H1 & H2).
    rewrite (hook_step_eq _ _ _ _ Hb) in H1.
    destruct (outcome sys _); inversion H1; subst s1.
    apply IH in H2; [| exact Hb]. subst s'.
    rewrite hooks_events_cons. cbn [set_log log].
    rewrite <- app_assoc. reflexivity.
Qed.

(** The loop stops at the first command that fails. *)
Lemma hooks_loop_fail msg b cmds : ∀ s (k : nat) c e,
  build (rl s) = Some b →
  cmds !! k = Some c →
  (∀ i : nat, (i < k)%nat →
     outcome sys (log s ++ hooks_events sys b (take (S i) cmds)) = None) →
  outcome sys (log s ++ hooks_events sys b (take (S k) cmds)) = Some e →
  for_range cmds (hook_body sys msg) s =
  (Err (Errorf msg (Errorf ("failed to run command " +:+ c) e)),
   set_log (log s ++ hooks_events sys b (take (S k) cmds)) s).
Proof.
  induction cmds as [| c0 cmds IH]; intros s k c e Hb Hk Hbefore Hfail.
  - discriminate.
  - cbn [for_range]. destruct k as [| k].
    + injection Hk as ->.
      cbn [take] in Hfail |- *. rewrite take_0 in Hfail |- *.
      rewrite hooks_events_cons in Hfail |- *. cbn [hooks_events flat_map] in Hfail |- *.
      rewrite app_nil_r in Hfail |- *.
      erewrite bind_Err; [reflexivity |].
      rewrite (hook_step_eq _ _ _ _ Hb), Hfail. reflexivity.
    + cbn in Hk.
      pose proof (Hbefore 0%nat ltac:(lia)) as H0.
      cbn [take] in H0. rewrite take_0 in H0.
      rewrite hooks_events_cons in H0. cbn [hooks_events flat_map] in H0.
      rewrite app_nil_r in H0.
      erewrite bind_Ok;
        [| rewrite (hook_step_eq _ _ _ _ Hb), H0; reflexivity].
      rewrite (IH _ k c e); cbn [set_log log rl].
      * cbn [take]. rewrite hooks_events_cons, <- app_assoc. reflexivity.
      * exact Hb.
      * exact Hk.
      * intros i Hi. rewrite <- app_assoc.
        specialize (Hbefore (S i) ltac:(lia)).
        cbn [take] in Hbefore. rewrite hooks_events_cons in Hbefore.
        exact Hbefore.
      * rewrite <- app_assoc. cbn [take] in Hfail.
        rewrite hooks_events_cons in Hfail. exact Hfail.
Qed.

(** A loop that failed did so at some command, the first to fail, and
    ran nothing after it. *)
Lemma hooks_loop_Err_inv msg b cmds : ∀ s e s',
  build (rl s) = Some b →
  for_range cmds (hook_body sys msg) s = (Err e, s') →
  ∃ (k : nat) c e0,
    cmds !! k = Some c
    ∧ (∀ i : nat, (i < k)%nat →
         outcome sys (log s ++ hooks_events sys b (take (S i) cmds)) = None)
    ∧ outcome sys (log s ++ hooks_events sys b (take (S k) cmds)) = Some e0
    ∧ e = Errorf msg (Errorf ("failed to run command " +:+ c) e0)
    ∧ s' = set_log (log s ++ hooks_events sys b (take (S k) cmds)) s.
Proof.
  induction cmds as [| c0 cmds IH]; intros s e s' Hb H.
  - discriminate.
  - cbn [for_range] in H. unfold bind in H.
    rewrite (hook_step_eq _ _ _ _ Hb) in H.
    destruct (outcome sys (log s ++ hook_events sys b c0)) as [e0 |] eqn:Ho.
    + inversion H; subst e s'; clear H.
      exists 0%nat, c0, e0. cbn [take]. rewrite take_0, hooks_events_cons.
      cbn [hooks_events flat_map]. rewrite app_nil_r.
      repeat split; [| exact Ho]. intros i Hi. lia.
    + apply IH in H as (k & c & e1 & Hk & Hbefore & Hfail & -> & ->); [| exact Hb].
      cbn [set_log log] in *.
      exists (S k), c, e1. cbn [take]. rewrite hooks_events_cons.
      repeat split.
      * exact Hk.
      * intros i Hi. destruct i as [| i].
        -- cbn [take]. rewrite take_0, hooks_events_cons.
           cbn [hooks_events flat_map]. rewrite app_nil_r. exact Ho.
        -- cbn [take]. rewrite hooks_events_cons, app_assoc.
           apply Hbefore. lia.
      * rewrite app_assoc. exact Hfail.
      * rewrite app_assoc. reflexivity.
Qed.

End Hooks.

(** C8: in each of the three phases the commands run one after the
    other in list order.  When the k-th is the first to fail, the phase
    returns that failure and the log holds the commands up to the k-th
    and nothing of the rest; a phase that returns without error ran
    them all; and a phase never fails in another way. *)
Theorem runPhase_fail_fast (sys : Sys) (ph : Phase) (s : State) (b : Build) :
  build (rl s) = Some b →
  let cmds := phase_commands ph b in
  (∀ (k : nat) c e,
     cmds !! k = Some c →
     (∀ i : nat, (i < k)%nat →
        outcome sys (log s ++ hooks_events sys b (take (S i) cmds)) = None) →
     outcome sys (log s ++ hooks_events sys b (take (S k) cmds)) = Some e →
     runPhase sys ph s =
     (Err (Errorf (phase_failure ph) (Errorf ("failed to run command " +:+ c) e)),
      set_log (log s ++ hooks_events sys b (take (S k) cmds)) s))
  ∧ (∀ s', runPhase sys ph s = (Ok tt, s') →
       s' = set_log (log s ++ hooks_events sys b cmds) s)
  ∧ (∀ e s', runPhase sys ph s = (Err e, s') →
       ∃ (k : nat) c e0,
         cmds !! k = Some c
         ∧ outcome sys (log s ++ hooks_events sys b (take (S k) cmds)) = Some e0
         ∧ e = Errorf (phase_failure ph) (Errorf ("failed to run command " +:+ c) e0)
         ∧ s' = set_log (log s ++ hooks_events sys b (take (S k) cmds)) s).
Proof.
  intros Hb cmds. rewrite (runPhase_eq sys ph s b Hb). fold cmds.
  split; [| split].
  - intros k c e Hk Hbefore Hfail. apply hooks_loop_fail; assumption.
  - intros s' H. eapply hooks_loop_Ok_inv; eassumption.
  - intros e s' H.
    apply (hooks_loop_Err_inv sys _ b) in H
      as (k & c & e0 & Hk & _ & Hfail & He & Hs); [| exact Hb].
    exists k, c, e0. done.
Qed.

Lemma runPhase_fail_fast_witness :
  runPhase Sample.false_fails PhaseInit Sample.three_hooks =
  (Err (Errorf "failed to run command in build.init"
          (Errorf "failed to run command false" Sample.exit1)),
   set_log (hooks_events Sample.false_fails Sample.three ["echo one"; "false"])
     Sample.three_hooks).
Proof.
  apply (proj1 (runPhase_fail_fast Sample.false_fails PhaseInit Sample.three_hooks
                  Sample.three eq_refl) 1%nat "false" Sample.exit1).
  - reflexivity.
  - intros i Hi. assert (i = 0%nat) as -> by lia. reflexivity.
  - reflexivity.
Defined.

(** ** What a computation can do to the state *)

Section Stays.

Context (R : State → State → Prop) `{!PreOrder R}.

Lemma stays_ret {A} (a : A) : stays R (ret a).
Proof. intros s. reflexivity. Qed.

Lemma stays_gets {A} (f : State → A) : stays R (gets f).
Proof. intros s. reflexivity. Qed.

Lemma stays_deref {A} (f : Reloader → option A) : stays R (deref f).
Proof. intros s. unfold deref. destruct (f (rl s)); reflexivity. Qed.

Lemma stays_bind {A B} (m : M A) (k : A → M B) :
  stays R m → (∀ a, stays R (k a)) → stays R (bind m k).
Proof.
  intros Hm Hk s. unfold bind. specialize (Hm s).
  destruct (m s) as [[a | e |] s1]; cbn [snd] in *; [| done | done].
  etransitivity; [exact Hm | apply Hk].
Qed.

Lemma stays_try {A} msg (m : M A) : stays R m → stays R (try msg m).
Proof.
  intros Hm s. unfold try. specialize (Hm s).
  destruct (m s) as [[a | e |] s1]; exact Hm.
Qed.

Lemma stays_for_range {A} (l : list A) (body : A → M unit) :
  (∀ x, stays R (body x)) → stays R (for_range l body).
Proof.
  intros Hbody. induction l as [| x l IH]; cbn [for_range].
  - apply stays_ret.
  - apply stays_bind; [apply Hbody | intros _; exact IH].
Qed.

End Stays.

#[local] Instance grows_preorder (P : Event → Prop) : PreOrder (grows P).
Proof.
  split.
  - intros s. exists []. split; [| constructor].
    rewrite app_nil_r. destruct s; reflexivity.
  - intros s1 s2 s3 (evs1 & -> & H1) (evs2 & -> & H2).
    exists (evs1 ++ evs2). split.
    + cbn [set_log log]. rewrite app_assoc. reflexivity.
    + apply Forall_app; done.
Qed.

Lemma stays_call sys (P : Event → Prop) ev : P ev → stays (grows P) (call sys ev).
Proof.
  intros HP s. rewrite call_eq. exists [ev]. split; [reflexivity |].
  constructor; [exact HP | constructor].
Qed.

Lemma stays_emit (P : Event → Prop) ev : P ev → stays (grows P) (emit ev).
Proof.
  intros HP s. exists [ev]. split; [reflexivity |].
  constructor; [exact HP | constructor].
Qed.

Lemma stays_runPhase sys ph : stays (grows quiet) (runPhase sys ph).
Proof.
  assert (Hhook : ∀ msg cmd,
    stays (grows quiet)
      (Println ("Running: " +:+ cmd) >>
       try msg (runBuildHookCommandInGoContext sys cmd))%go).
  { intros msg cmd. apply stays_bind; [typeclasses eauto | |].
    - apply stays_emit. done.
    - intros _. apply stays_try. unfold runBuildHookCommandInGoContext.
      apply stays_bind; [typeclasses eauto | apply stays_deref; typeclasses eauto |].
      intros b. apply stays_try, stays_call. done. }
  destruct ph; cbn [runPhase];
    unfold runBuildInitCommands, runBuildBeforeCommands, runBuildAfterCommands;
    (apply stays_bind; [typeclasses eauto | apply stays_deref; typeclasses eauto |]);
    intros b; apply stays_for_range; try typeclasses eauto; intros cmd; apply Hhook.
Qed.

(** [xbuild] only adds events of building: the receiver, the files and
    the child stay as they are, however the build ends. *)
Lemma stays_xbuild sys target source :
  stays (grows quiet) (xbuild sys target source).
Proof.
  unfold xbuild.
  apply stays_bind; [typeclasses eauto | apply stays_emit; done |]. intros _.
  apply stays_bind; [typeclasses eauto | |].
  { apply stays_try. apply (stays_runPhase sys PhaseBefore). }
  intros _.
  apply stays_bind; [typeclasses eauto | apply stays_gets; typeclasses eauto |].
  intros b.
  apply stays_bind; [typeclasses eauto | apply stays_gets; typeclasses eauto |].
  intros cross.
  apply stays_bind; [typeclasses eauto | |].
  { destruct cross; [| apply stays_ret; typeclasses eauto].
    apply stays_bind; [typeclasses eauto | |].
    - unfold host_Docker. apply stays_bind; [typeclasses eauto | |].
      + apply stays_deref; typeclasses eauto.
      + intros h. apply stays_ret; typeclasses eauto.
    - intros c. apply stays_ret; typeclasses eauto. }
  intros g.
  apply stays_bind; [typeclasses eauto | apply stays_try, stays_call; done |].
  intros _. apply stays_try. apply (stays_runPhase sys PhaseAfter).
Qed.

(** ** A build that went through *)

Lemma runPhase_Ok_inv sys ph s s' :
  runPhase sys ph s = (Ok tt, s') →
  ∃ b, build (rl s) = Some b
       ∧ s' = set_log (log s ++ hooks_events sys b (phase_commands ph b)) s.
Proof.
  intros H. destruct (build (rl s)) as [b |] eqn:Hb.
  - exists b. split; [done |].
    rewrite (runPhase_eq sys ph s b Hb) in H.
    eapply hooks_loop_Ok_inv; eassumption.
  - rewrite (runPhase_nil sys ph s Hb) in H. discriminate.
Qed.

Lemma host_Docker_Ok_inv s d s' :
  host_Docker s = (Ok d, s') →
  config.Host_Docker <$> host (rl s) = Some d ∧ s' = s.
Proof.
  unfold host_Docker, bind, deref, ret.
  destruct (host (rl s)) as [h |]; intros H; inversion H. done.
Qed.

Lemma gets_Ok_inv {A} (f : State → A) s a s' :
  gets f s = (Ok a, s') → a = f s ∧ s' = s.
Proof. intros H. inversion H. done. Qed.

Lemma isOnDockerContainer_set_log l s :
  isOnDockerContainer (set_log l s) = isOnDockerContainer s.
Proof. reflexivity. Qed.

Lemma xbuild_Ok_inv sys s s' :
  xbuild sys (buildPath sys) "." s = (Ok tt, s') →
  ∃ b, build (rl s) = Some b
       ∧ s' = set_log (log s ++ build_events sys b (cross_target s)) s.
Proof.
  unfold xbuild. intros H.
  apply bind_Ok_inv in H as ([] & s1 & H1 & H). inversion H1; subst s1; clear H1.
  apply bind_Ok_inv in H as ([] & s2 & H2 & H).
  apply try_Ok_inv in H2.
  apply (runPhase_Ok_inv sys PhaseBefore) in H2 as (b & Hb & ->).
  cbn [set_log log rl] in *.
  exists b. split; [exact Hb |].
  apply bind_Ok_inv in H as (ob & s3 & H3 & H).
  apply gets_Ok_inv in H3 as [-> ->].
  cbn [set_log log rl] in H. rewrite Hb in H.
  apply bind_Ok_inv in H as (cross & s4 & H4 & H).
  apply gets_Ok_inv in H4 as [-> ->].
  rewrite !isOnDockerContainer_set_log in H. cbn [set_log log rl] in H.
  apply bind_Ok_inv in H as (g & s5 & H5 & H).
  assert (Hg : g = build_gocmd sys b (cross_target s) ∧ s5 =
            set_log ((log s ++ [EvStdout "Building...."])
                     ++ hooks_events sys b (phase_commands PhaseBefore b)) s).
  { unfold cross_target.
    destruct (isUsedDocker (rl s) && negb (isOnDockerContainer s)).
    - apply bind_Ok_inv in H5 as (d & s6 & H6 & H5).
      apply host_Docker_Ok_inv in H6 as [Hd ->]. cbn [rl set_log] in Hd.
      rewrite Hd. inversion H5. done.
    - inversion H5. done. }
  destruct Hg as [-> ->].
  apply bind_Ok_inv in H as ([] & s6 & H6 & H).
  apply try_Ok_inv in H6. rewrite call_eq in H6.
  destruct (outcome sys _); inversion H6; subst s6; clear H6.
  apply try_Ok_inv in H.
  apply (runPhase_Ok_inv sys PhaseAfter) in H as (b' & Hb' & ->).
  cbn [set_log log rl] in *. rewrite Hb in Hb'. injection Hb' as <-.
  unfold build_events, compile_event. cbn [phase_commands].
  repeat rewrite <- app_assoc. reflexivity.
Qed.

(** ** Restarting the child *)

Lemma reload_nothing_running sys s :
  cmd (rl s) = None →
  reload sys s =
  (Ok tt, set_cmd (Some (program sys (rl s)))
            (set_log (log s ++ restart_events sys (rl s)) s)).
Proof.
  intros Hc. unfold reload, restart_events, stop_events, program, Println.
  erewrite bind_Ok; [| reflexivity].
  unfold stopCurrentProcess, try, bind, gets, emit, ret.
  cbn [set_log set_cmd rl log cmd run files]. rewrite Hc.
  cbn [set_log set_cmd rl log cmd run files host build].
  rewrite <- app_assoc. destruct s as [[h c b r] f l]; cbn in *.
  destruct r; reflexivity.
Qed.

Lemma reload_stop_ok sys s c :
  cmd (rl s) = Some c →
  outcome sys (log s ++ [EvStdout "Restarting..."; EvStop c]) = None →
  reload sys s =
  (Ok tt, set_cmd (Some (program sys (rl s)))
            (set_log (log s ++ restart_events sys (rl s)) s)).
Proof.
  intros Hc Ho. unfold reload, restart_events, stop_events, program, Println.
  erewrite bind_Ok; [| reflexivity].
  unfold stopCurrentProcess, try, bind, gets, emit, ret.
  cbn [set_log set_cmd rl log cmd run files]. rewrite Hc, call_eq.
  cbn [set_log set_cmd rl log cmd run files host build].
  rewrite <- app_assoc. cbn [app]. rewrite Ho.
  cbn [set_log set_cmd rl log cmd run files host build].
  repeat rewrite <- app_assoc.
  destruct s as [[h c' b r] f l]; cbn in *.
  destruct r; reflexivity.
Qed.

Lemma reload_stop_fails sys s c e :
  cmd (rl s) = Some c →
  outcome sys (log s ++ [EvStdout "Restarting..."; EvStop c]) = Some e →
  reload sys s =
  (Err (Errorf "failed to stop current process" (Errorf "failed to stop process" e)),
   set_log (log s ++ [EvStdout "Restarting..."; EvStop c]) s).
Proof.
  intros Hc Ho. unfold reload, Println.
  erewrite bind_Ok; [| reflexivity].
  unfold stopCurrentProcess, try, bind, gets, emit, ret.
  cbn [set_log set_cmd rl log cmd run files]. rewrite Hc, call_eq.
  cbn [set_log set_cmd rl log cmd run files host build].
  rewrite <- app_assoc. cbn [app]. rewrite Ho. reflexivity.
Qed.

Lemma reload_Ok_inv sys s s' :
  reload sys s = (Ok tt, s') →
  s' = set_cmd (Some (program sys (rl s)))
         (set_log (log s ++ restart_events sys (rl s)) s).
Proof.
  intros H. destruct (cmd (rl s)) as [c |] eqn:Hc.
  - destruct (outcome sys (log s ++ [EvStdout "Restarting..."; EvStop c])) as [e |] eqn:Ho.
    + rewrite (reload_stop_fails sys s c e Hc Ho) in H. discriminate.
    + rewrite (reload_stop_ok sys s c Hc Ho) in H. congruence.
  - rewrite (reload_nothing_running sys s Hc) in H. congruence.
Qed.
(** ** Start-up *)

Lemma Run_by_arm sys s :
  Run sys s = (arm_body sys (Run_arm s) >> watchReloadSignal)%go s.
Proof.
  unfold Run, Run_arm, bind, gets.
  destruct (IsEnabledReload s); cbn; [| reflexivity].
  destruct (isUsedDocker (rl s) && negb (isOnDockerContainer s)); reflexivity.
Qed.

Lemma Run_arm_local s : isUsedDocker (rl s) = false → Run_arm s = ArmOnLocalhost.
Proof. unfold Run_arm, IsEnabledReload. intros ->. reflexivity. Qed.

Lemma Run_arm_inside s :
  isUsedDocker (rl s) = true → isOnDockerContainer s = true →
  Run_arm s = ArmInContainer.
Proof. unfold Run_arm, IsEnabledReload. intros -> ->. reflexivity. Qed.

Lemma cross_target_local s : isUsedDocker (rl s) = false → cross_target s = None.
Proof. unfold cross_target. intros ->. reflexivity. Qed.

Lemma cross_target_host s d :
  host (rl s) = Some {| config.Host_Docker := d |} → d ≠ "" →
  isOnDockerContainer s = false →
  cross_target s = Some d.
Proof.
  unfold cross_target, isUsedDocker. intros -> Hd ->. cbn.
  rewrite bool_decide_true by done. reflexivity.
Qed.

Lemma isUsedDocker_host r d :
  host r = Some {| config.Host_Docker := d |} → d ≠ "" → isUsedDocker r = true.
Proof.
  unfold isUsedDocker. intros -> Hd. cbn. rewrite bool_decide_true by done.
  reflexivity.
Qed.

Lemma then_watch_Ok_inv (m : M unit) s s' :
  (m >> watchReloadSignal)%go s = (Ok tt, s') →
  ∃ s1, m s = (Ok tt, s1) ∧ s' = set_log (log s1 ++ [EvNotify "SIGHUP"]) s1.
Proof.
  intros H. apply bind_Ok_inv in H as ([] & s1 & H1 & H2).
  exists s1. split; [exact H1 |]. inversion H2. reflexivity.
Qed.

(** C1: the mode is a function of the two booleans with the spec's
    table, [IsEnabledReload] is false in InsideRemote only, and the arm
    [Run] takes is the arm of the mode. *)
Theorem Run_arm_topology :
  (∀ marker, topology false marker = Local)
  ∧ topology true true = InsideRemote
  ∧ topology true false = HostDelegating
  ∧ ∀ (sys : Sys) (s : State),
      let mode := topology (isUsedDocker (rl s)) (isOnDockerContainer s) in
      Run_arm s = arm_of_mode mode
      ∧ IsEnabledReload s = negb (bool_decide (mode = InsideRemote))
      ∧ Run sys s = (arm_body sys (Run_arm s) >> watchReloadSignal)%go s.
Proof.
  repeat split.
  - unfold Run_arm, IsEnabledReload.
    destruct (isUsedDocker (rl s)), (isOnDockerContainer s); reflexivity.
  - unfold IsEnabledReload.
    destruct (isUsedDocker (rl s)), (isOnDockerContainer s); reflexivity.
  - apply Run_by_arm.
Qed.

(** The localhost arm, when it goes through: init hooks, the build,
    the restart; the files stay as they are. *)
Lemma Run_on_localhost_Ok_inv sys s s' :
  Run_on_localhost sys s = (Ok tt, s') →
  ∃ b, build (rl s) = Some b
       ∧ rl s' = rl (set_cmd (Some (program sys (rl s))) s)
       ∧ files s' = files s
       ∧ log s' = log s ++ hooks_events sys b (Build_Init b)
                    ++ build_events sys b (cross_target s)
                    ++ restart_events sys (rl s).
Proof.
  unfold Run_on_localhost. intros H.
  apply bind_Ok_inv in H as ([] & s1 & H1 & H).
  apply try_Ok_inv in H1.
  apply (runPhase_Ok_inv sys PhaseInit) in H1 as (b & Hb & ->).
  apply bind_Ok_inv in H as ([] & s2 & H2 & H).
  apply try_Ok_inv in H2.
  apply xbuild_Ok_inv in H2 as (b' & Hb' & ->).
  cbn [set_log rl log] in Hb'. rewrite Hb in Hb'. injection Hb' as <-.
  apply try_Ok_inv in H. apply reload_Ok_inv in H. subst s'.
  exists b. split; [exact Hb |]. cbn [set_log set_cmd rl files log phase_commands].
  repeat split. repeat rewrite <- app_assoc. reflexivity.
Qed.

(** C2, as amended: with no remote target, a start-up that goes through
    runs the init hooks, then the whole build (before hooks, compile,
    after hooks), then starts the program, which becomes the tracked
    child, and sets up the signal watch.  It writes no file: the pid
    file is left as it was. *)
Theorem Run_local_startup (sys : Sys) (s s' : State) :
  isUsedDocker (rl s) = false →
  Run sys s = (Ok tt, s') →
  ∃ b, build (rl s) = Some b
       ∧ log s' = log s ++ hooks_events sys b (Build_Init b)
                    ++ build_events sys b None
                    ++ restart_events sys (rl s)
                    ++ [EvNotify "SIGHUP"]
       ∧ cmd (rl s') = Some (program sys (rl s))
       ∧ files s' = files s.
Proof.
  intros Hlocal H. rewrite Run_by_arm, (Run_arm_local s Hlocal) in H.
  apply then_watch_Ok_inv in H as (s1 & H1 & ->).
  apply Run_on_localhost_Ok_inv in H1 as (b & Hb & Hrl & Hfiles & Hlog).
  rewrite (cross_target_local s Hlocal) in Hlog.
  exists b. cbn [set_log rl files log]. rewrite Hrl, Hfiles, Hlog.
  repeat split; [exact Hb |]. repeat rewrite <- app_assoc. reflexivity.
Qed.

Lemma Run_local_startup_witness :
  ∃ b, build (rl Sample.local) = Some b
       ∧ log (snd (Run Sample.calm Sample.local))
         = log Sample.local ++ hooks_events Sample.calm b (Build_Init b)
             ++ build_events Sample.calm b None
             ++ restart_events Sample.calm (rl Sample.local)
             ++ [EvNotify "SIGHUP"]
       ∧ cmd (rl (snd (Run Sample.calm Sample.local)))
         = Some (program Sample.calm (rl Sample.local))
       ∧ files (snd (Run Sample.calm Sample.local)) = files Sample.local.
Proof.
  apply (Run_local_startup Sample.calm Sample.local).
  - reflexivity.
  - reflexivity.
Defined.

(** C2 as stated fails: a Local start-up that goes through leaves no
    pid on record. *)
Lemma Run_local_writes_no_pid :
  topology (isUsedDocker (rl Sample.local)) (isOnDockerContainer Sample.local) = Local
  ∧ fst (Run Sample.calm Sample.local) = Ok tt
  ∧ files (snd (Run Sample.calm Sample.local)) !! pidPath = None
  ∧ log (snd (Run Sample.calm Sample.local)) =
      [EvStdout "Running: echo hi";
       EvGoRun {| Go_env := ["GOPATH=/go"]; Go_cross := None; Go_dir := None |}
         ["echo"; "hi"];
       EvStdout "Building....";
       EvStdout "Running: go generate";
       EvGoRun {| Go_env := ["GOPATH=/go"]; Go_cross := None; Go_dir := None |}
         ["go"; "generate"];
       EvGoBuild {| Go_env := ["GOPATH=/go"]; Go_cross := None; Go_dir := None |}
         ["-o"; "/work/.rebirth/program"; "."];
       EvStdout "Restarting...";
       EvRunAsync {| Command_path := "/work/.rebirth/program";
                     Command_env := ["PORT=80"] |};
       EvNotify "SIGHUP"].
Proof. repeat split; vm_compute; reflexivity. Qed.

Lemma restart_events_without_host sys r :
  restart_events sys (without_host r) = restart_events sys r.
Proof. reflexivity. Qed.

(** C3, as amended: inside the remote target a start-up that goes
    through writes the supervisor's own pid to the pid file and then
    only restarts: it stops what runs and starts the program, with no
    init hook and no build.  The restart is the step that also ends a
    start-up of the same configuration without its remote target, which
    before it runs the init hooks and the build and writes no pid. *)
Theorem Run_inside_remote_startup (sys : Sys) (s s' : State) :
  isUsedDocker (rl s) = true →
  isOnDockerContainer s = true →
  Run sys s = (Ok tt, s') →
  (log s' = log s ++ EvWriteFile pidPath (fmt.Sprint (Getpid sys))
              :: restart_events sys (rl s) ++ [EvNotify "SIGHUP"]
   ∧ files s' = <[pidPath := fmt.Sprint (Getpid sys)]> (files s)
   ∧ cmd (rl s') = Some (program sys (rl s)))
  ∧ ∀ t t', rl t = without_host (rl s) →
      Run sys t = (Ok tt, t') →
      ∃ b, build (rl s) = Some b
           ∧ log t' = log t ++ (hooks_events sys b (Build_Init b)
                                  ++ build_events sys b None)
                        ++ restart_events sys (rl s) ++ [EvNotify "SIGHUP"]
           ∧ files t' = files t.
Proof.
  intros Hused Hinside H. split.
  - rewrite Run_by_arm, (Run_arm_inside s Hused Hinside) in H.
    apply then_watch_Ok_inv in H as (s1 & H1 & ->).
    unfold arm_body, Run_in_container in H1.
    apply bind_Ok_inv in H1 as ([] & s2 & H2 & H1).
    apply try_Ok_inv in H2. apply writePID_Ok_inv in H2. subst s2.
    apply try_Ok_inv in H1. apply reload_Ok_inv in H1. subst s1.
    cbn [set_log set_cmd set_files rl files log cmd].
    repeat split. repeat rewrite <- app_assoc. reflexivity.
  - intros t t' Ht Hrun.
    assert (Hlocal : isUsedDocker (rl t) = false) by (rewrite Ht; reflexivity).
    rewrite Run_by_arm, (Run_arm_local t Hlocal) in Hrun.
    apply then_watch_Ok_inv in Hrun as (t1 & H1 & ->).
    apply Run_on_localhost_Ok_inv in H1 as (b & Hb & Hrl & Hfiles & Hlog).
    rewrite (cross_target_local t Hlocal) in Hlog.
    rewrite Ht in Hb, Hlog. rewrite restart_events_without_host in Hlog.
    exists b. cbn [set_log rl files log]. rewrite Hfiles, Hlog.
    repeat split; [exact Hb |]. repeat rewrite <- app_assoc. reflexivity.
Qed.

Lemma Run_inside_remote_startup_witness :
  log (snd (Run Sample.calm Sample.inside))
    = [EvWriteFile ".rebirth/server.pid" "4711";
       EvStdout "Restarting...";
       EvRunAsync {| Command_path := "/work/.rebirth/program";
                     Command_env := ["PORT=80"] |};
       EvNotify "SIGHUP"]
  ∧ files (snd (Run Sample.calm Sample.inside)) !! pidPath = Some "4711".
Proof.
  destruct (Run_inside_remote_startup Sample.calm Sample.inside
              (snd (Run Sample.calm Sample.inside)))
    as [(Hlog & Hfiles & _) _]; [reflexivity | reflexivity | reflexivity |].
  rewrite Hlog, Hfiles. split; reflexivity.
Defined.

(** C3 as stated fails: with the marker present the start-up writes the
    pid file and builds nothing, without a remote target it builds and
    writes nothing. *)
Lemma Run_inside_differs_from_local :
  topology (isUsedDocker (rl Sample.inside)) (isOnDockerContainer Sample.inside)
    = InsideRemote
  ∧ topology (isUsedDocker (rl Sample.inside_twin))
      (isOnDockerContainer Sample.inside_twin) = Local
  ∧ fst (Run Sample.calm Sample.inside) = Ok tt
  ∧ fst (Run Sample.calm Sample.inside_twin) = Ok tt
  ∧ log (snd (Run Sample.calm Sample.inside))
    = [EvWriteFile ".rebirth/server.pid" "4711";
       EvStdout "Restarting...";
       EvRunAsync {| Command_path := "/work/.rebirth/program";
                     Command_env := ["PORT=80"] |};
       EvNotify "SIGHUP"]
  ∧ log (snd (Run Sample.calm Sample.inside_twin))
    = [EvStdout "Running: echo hi";
       EvGoRun {| Go_env := ["GOPATH=/go"]; Go_cross := None; Go_dir := None |}
         ["echo"; "hi"];
       EvStdout "Building....";
       EvStdout "Running: go generate";
       EvGoRun {| Go_env := ["GOPATH=/go"]; Go_cross := None; Go_dir := None |}
         ["go"; "generate"];
       EvGoBuild {| Go_env := ["GOPATH=/go"]; Go_cross := None; Go_dir := None |}
         ["-o"; "/work/.rebirth/program"; "."];
       EvStdout "Restarting...";
       EvRunAsync {| Command_path := "/work/.rebirth/program";
                     Command_env := ["PORT=80"] |};
       EvNotify "SIGHUP"]
  ∧ files (snd (Run Sample.calm Sample.inside)) !! pidPath = Some "4711"
  ∧ files (snd (Run Sample.calm Sample.inside_twin)) !! pidPath = None
  ∧ log (snd (Run Sample.calm Sample.inside))
    ≠ log (snd (Run Sample.calm Sample.inside_twin)).
Proof.
  repeat split; try (vm_compute; reflexivity).
  vm_compute. discriminate.
Qed.
(** ** Reload *)

Lemma readPID_set_log l s :
  readPID (set_log l s) = (fst (readPID s), set_log l s).
Proof.
  destruct (files s !! pidPath) as [file |] eqn:Hf.
  - rewrite (readPID_present (set_log l s) file), (readPID_present s file) by done.
    reflexivity.
  - rewrite (readPID_absent (set_log l s)), (readPID_absent s) by done.
    reflexivity.
Qed.

Lemma Reload_build_fails sys s e s1 :
  xbuild sys (buildPath sys) "." s = (Err e, s1) →
  Reload sys s = (Err (Errorf "failed to build on host" e), s1).
Proof.
  intros H. unfold Reload. erewrite bind_Err; [reflexivity |].
  apply try_Err. exact H.
Qed.

Lemma Reload_build_ok sys s s1 :
  xbuild sys (buildPath sys) "." s = (Ok tt, s1) →
  Reload sys s = try "failed to send reloading signal" (sendReloadingSignal sys) s1.
Proof.
  intros H. unfold Reload. erewrite bind_Ok; [reflexivity |].
  apply try_Ok. exact H.
Qed.

Lemma xbuild_grows sys s r s1 :
  xbuild sys (buildPath sys) "." s = (r, s1) → grows quiet s s1.
Proof.
  intros H. pose proof (stays_xbuild sys (buildPath sys) "." s) as Hs.
  rewrite H in Hs. exact Hs.
Qed.

(** Signalling the peer, on the host of a configured container. *)
Lemma sendReloadingSignal_remote sys s d :
  host (rl s) = Some {| config.Host_Docker := d |} → d ≠ "" →
  sendReloadingSignal sys s =
  match fst (readPID s) with
  | Ok pid =>
      let l := log s ++ [EvDockerRun d ["kill"; "-HUP"; fmt.Sprint pid]] in
      (match outcome sys l with
       | None => Ok tt
       | Some e => Err (Errorf "failed to exec command on docker container" e)
       end, set_log l s)
  | Err e => (Err (Errorf "failed to read pid" e), s)
  | Panic => (Panic, s)
  end.
Proof.
  intros Hh Hd. unfold sendReloadingSignal.
  unfold bind at 1, gets. rewrite (isUsedDocker_host _ d Hh Hd).
  pose proof (readPID_state s) as Hst.
  destruct (readPID s) as [[pid | e |] s0] eqn:Hr; cbn [fst snd] in *; subst s0.
  - erewrite bind_Ok; [| apply try_Ok; exact Hr].
    unfold host_Docker, deref, bind at 1, bind at 1, ret. rewrite Hh. cbn [config.Host_Docker].
    unfold try. rewrite call_eq. destruct (outcome sys _); reflexivity.
  - erewrite bind_Err; [reflexivity |]. apply try_Err. exact Hr.
  - unfold bind, try. rewrite Hr. reflexivity.
Qed.

(** C4, as amended: on the host of a configured container, [Reload]
    first rebuilds the artifact, cross-targeted at the container.  When
    the build fails it returns that error and sends nothing.  After a
    build that went through it reads the peer's pid from the pid file
    and runs [kill -HUP pid] in the container, once; when the pid cannot
    be read it returns that error and runs no remote command. *)
Theorem Reload_host_delegating (sys : Sys) (s : State) (d : string) :
  host (rl s) = Some {| config.Host_Docker := d |} → d ≠ "" →
  isOnDockerContainer s = false →
  (∀ e s1, xbuild sys (buildPath sys) "." s = (Err e, s1) →
     Reload sys s = (Err (Errorf "failed to build on host" e), s1)
     ∧ grows quiet s s1)
  ∧ (∀ s1, xbuild sys (buildPath sys) "." s = (Ok tt, s1) →
       (∃ b, build (rl s) = Some b
             ∧ s1 = set_log (log s ++ build_events sys b (Some d)) s)
       ∧ (∀ pid, fst (readPID s) = Ok pid →
            let l := log s1 ++ [EvDockerRun d ["kill"; "-HUP"; fmt.Sprint pid]] in
            Reload sys s =
            (match outcome sys l with
             | None => Ok tt
             | Some e =>
                 Err (Errorf "failed to send reloading signal"
                        (Errorf "failed to exec command on docker container" e))
             end, set_log l s1))
       ∧ (∀ e, fst (readPID s) = Err e →
            Reload sys s =
            (Err (Errorf "failed to send reloading signal"
                    (Errorf "failed to read pid" e)), s1))).
Proof.
  intros Hh Hd Hout. split.
  - intros e s1 Hx. split; [apply Reload_build_fails; exact Hx |].
    eapply xbuild_grows; exact Hx.
  - intros s1 Hx. pose proof (xbuild_grows _ _ _ _ Hx) as (evs & Hs1 & _).
    pose proof (Reload_build_ok _ _ _ Hx) as HR.
    assert (Hsend := sendReloadingSignal_remote sys s1 d).
    rewrite Hs1 in Hsend at 1 2. cbn [set_log rl] in Hsend.
    specialize (Hsend Hh Hd). rewrite Hs1, readPID_set_log in Hsend at 1.
    cbn [fst] in Hsend. rewrite <- Hs1 in Hsend.
    split; [| split].
    + apply xbuild_Ok_inv in Hx as (b & Hb & Hx).
      rewrite (cross_target_host s d Hh Hd Hout) in Hx. eauto.
    + intros pid Hpid. rewrite HR. unfold try. rewrite Hsend, Hpid. cbn zeta.
      destruct (outcome sys _); reflexivity.
    + intros e He. rewrite HR. unfold try. rewrite Hsend, He. reflexivity.
Qed.

Lemma Reload_host_delegating_witness :
  Reload Sample.calm Sample.delegating =
  (Ok tt,
   set_log (build_events Sample.calm Sample.hooks (Some "app")
              ++ [EvDockerRun "app" ["kill"; "-HUP"; "4711"]])
     Sample.delegating).
Proof.
  destruct (Reload_host_delegating Sample.calm Sample.delegating "app")
    as [_ Hok]; [reflexivity | discriminate | reflexivity |].
  destruct (Hok (snd (xbuild Sample.calm (buildPath Sample.calm) "." Sample.delegating)))
    as (_ & Hsig & _); [reflexivity |].
  rewrite (Hsig 4711); reflexivity.
Defined.

(** C4 as stated fails: on the host of a configured container [Reload]
    does rebuild, before it signals the peer. *)
Lemma Reload_delegating_rebuilds :
  topology (isUsedDocker (rl Sample.delegating))
    (isOnDockerContainer Sample.delegating) = HostDelegating
  ∧ Reload Sample.calm Sample.delegating =
    (Ok tt,
     set_log
       [EvStdout "Building....";
        EvStdout "Running: go generate";
        EvGoRun {| Go_env := ["GOPATH=/go"]; Go_cross := None; Go_dir := None |}
          ["go"; "generate"];
        EvGoBuild {| Go_env := ["GOPATH=/go"]; Go_cross := Some "app"; Go_dir := None |}
          ["-o"; "/work/.rebirth/program"; "."];
        EvDockerRun "app" ["kill"; "-HUP"; "4711"]]
       Sample.delegating).
Proof. split; vm_compute; reflexivity. Qed.
Lemma sendReloadingSignal_local sys s :
  isUsedDocker (rl s) = false →
  sendReloadingSignal sys s = try "failed to reload" (reload sys) s.
Proof.
  intros Hl. unfold sendReloadingSignal. unfold bind at 1, gets.
  rewrite Hl. reflexivity.
Qed.

Lemma restart_events_no_toolchain sys r :
  Forall (λ ev, is_toolchain_event ev = false) (restart_events sys r).
Proof.
  unfold restart_events, stop_events.
  destruct (cmd r); repeat constructor.
Qed.

(** C5, as amended: with no remote target, [Reload] rebuilds the
    artifact first.  When the build fails it returns that error, and
    the child is neither stopped nor replaced.  After a build that went
    through it restarts in-process: the tracked child is stopped and
    the program is started anew and tracked (a stop that fails ends the
    reload with the old child still tracked).  The signal-driven
    restart ([reload] on SIGHUP, the way a supervisor inside the remote
    target is told to restart) runs no build at all. *)
Theorem Reload_local_rebuilds_then_restarts (sys : Sys) (s : State) :
  (isUsedDocker (rl s) = false →
     (∀ e s1, xbuild sys (buildPath sys) "." s = (Err e, s1) →
        Reload sys s = (Err (Errorf "failed to build on host" e), s1)
        ∧ cmd (rl s1) = cmd (rl s)
        ∧ ∃ evs, log s1 = log s ++ evs
                 ∧ Forall (λ ev, is_process_event ev = false) evs)
     ∧ (∀ s1, xbuild sys (buildPath sys) "." s = (Ok tt, s1) →
          (∃ b, build (rl s) = Some b
                ∧ s1 = set_log (log s ++ build_events sys b None) s)
          ∧ ((∀ c, cmd (rl s) = Some c →
                outcome sys (log s1 ++ [EvStdout "Restarting..."; EvStop c]) = None) →
             Reload sys s =
             (Ok tt, set_cmd (Some (program sys (rl s)))
                       (set_log (log s1 ++ restart_events sys (rl s)) s1)))
          ∧ (∀ c e, cmd (rl s) = Some c →
               outcome sys (log s1 ++ [EvStdout "Restarting..."; EvStop c]) = Some e →
               fst (Reload sys s) =
                 Err (Errorf "failed to send reloading signal"
                        (Errorf "failed to reload"
                           (Errorf "failed to stop current process"
                              (Errorf "failed to stop process" e))))
               ∧ cmd (rl (snd (Reload sys s))) = Some c)))
  ∧ ((∀ c, cmd (rl s) = Some c →
        outcome sys (log s ++ [EvStdout "Restarting..."; EvStop c]) = None) →
     onSIGHUP sys s =
       (Ok tt, set_cmd (Some (program sys (rl s)))
                 (set_log (log s ++ restart_events sys (rl s)) s))
     ∧ Forall (λ ev, is_toolchain_event ev = false) (restart_events sys (rl s))).
Proof.
  split.
  - intros Hlocal. split.
    + intros e s1 Hx. split; [apply Reload_build_fails; exact Hx |].
      pose proof (xbuild_grows _ _ _ _ Hx) as (evs & -> & Hq).
      split; [reflexivity |]. exists evs. split; [reflexivity |].
      eapply Forall_impl; [exact Hq |]. intros ev [Hp _]. exact Hp.
    + intros s1 Hx.
      pose proof (xbuild_grows _ _ _ _ Hx) as (evs & Hs1 & _).
      pose proof (Reload_build_ok _ _ _ Hx) as HR.
      assert (Hrl : rl s1 = rl s) by (rewrite Hs1; reflexivity).
      assert (Hlocal1 : isUsedDocker (rl s1) = false) by (rewrite Hrl; exact Hlocal).
      split; [| split].
      * apply xbuild_Ok_inv in Hx as (b & Hb & Hx).
        rewrite (cross_target_local s Hlocal) in Hx. eauto.
      * intros Hstop. rewrite HR. apply try_Ok.
        rewrite (sendReloadingSignal_local sys s1 Hlocal1). apply try_Ok.
        rewrite <- Hrl. destruct (cmd (rl s1)) as [c |] eqn:Hc.
        -- apply (reload_stop_ok sys s1 c Hc). apply Hstop.
           rewrite <- Hrl. exact Hc.
        -- apply (reload_nothing_running sys s1 Hc).
      * intros c e Hc Ho. rewrite HR.
        rewrite <- Hrl in Hc.
        erewrite try_Err;
          [| rewrite (sendReloadingSignal_local sys s1 Hlocal1);
             apply try_Err; apply (reload_stop_fails sys s1 c e Hc Ho)].
        split; [reflexivity | exact Hc].
  - intros Hstop. split; [| apply restart_events_no_toolchain].
    unfold onSIGHUP. destruct (cmd (rl s)) as [c |] eqn:Hc.
    + rewrite (reload_stop_ok sys s c Hc (Hstop c eq_refl)). reflexivity.
    + rewrite (reload_nothing_running sys s Hc). reflexivity.
Qed.

Lemma Reload_local_rebuilds_then_restarts_witness :
  Reload Sample.calm Sample.local_running =
    (Ok tt,
     set_cmd (Some Sample.old)
       (set_log (build_events Sample.calm Sample.hooks None
                   ++ [EvStdout "Restarting..."; EvStop Sample.old;
                       EvRunAsync Sample.old])
          Sample.local_running))
  ∧ fst (Reload Sample.compile_fails Sample.local_running)
    = Err (Errorf "failed to build on host" (Errorf "failed to build" Sample.exit1))
  ∧ cmd (rl (snd (Reload Sample.compile_fails Sample.local_running)))
    = Some Sample.old
  ∧ cmd (rl (snd (Reload Sample.stop_fails Sample.local_running)))
    = Some Sample.old
  ∧ onSIGHUP Sample.calm Sample.inside_running =
    (Ok tt,
     set_cmd (Some Sample.old)
       (set_log [EvStdout "Restarting..."; EvStop Sample.old; EvRunAsync Sample.old]
          Sample.inside_running)).
Proof.
  split; [| split; [| split; [| split]]].
  - destruct (Reload_local_rebuilds_then_restarts Sample.calm Sample.local_running)
      as [Hlocal _].
    destruct (Hlocal eq_refl) as [_ Hok].
    destruct (Hok (snd (xbuild Sample.calm (buildPath Sample.calm) "."
                          Sample.local_running)) eq_refl) as (_ & Hrestart & _).
    rewrite Hrestart; [reflexivity |]. intros c Hc. reflexivity.
  - destruct (Reload_local_rebuilds_then_restarts Sample.compile_fails
                Sample.local_running) as [Hlocal _].
    destruct (Hlocal eq_refl) as [Hfail _].
    destruct (Hfail (Errorf "failed to build" Sample.exit1)
                (snd (xbuild Sample.compile_fails (buildPath Sample.compile_fails) "."
                        Sample.local_running)) eq_refl) as (HR & _).
    rewrite HR. reflexivity.
  - destruct (Reload_local_rebuilds_then_restarts Sample.compile_fails
                Sample.local_running) as [Hlocal _].
    destruct (Hlocal eq_refl) as [Hfail _].
    destruct (Hfail (Errorf "failed to build" Sample.exit1)
                (snd (xbuild Sample.compile_fails (buildPath Sample.compile_fails) "."
                        Sample.local_running)) eq_refl) as (HR & Hcmd & _).
    rewrite HR. exact Hcmd.
  - destruct (Reload_local_rebuilds_then_restarts Sample.stop_fails
                Sample.local_running) as [Hlocal _].
    destruct (Hlocal eq_refl) as [_ Hok].
    destruct (Hok (snd (xbuild Sample.stop_fails (buildPath Sample.stop_fails) "."
                          Sample.local_running)) eq_refl) as (_ & _ & Hstop).
    apply (Hstop Sample.old Sample.exit1); reflexivity.
  - destruct (Reload_local_rebuilds_then_restarts Sample.calm Sample.inside_running)
      as [_ Hsig].
    destruct Hsig as [Hs _]; [intros c Hc; reflexivity |].
    rewrite Hs. reflexivity.
Defined.

(** C5 as stated fails inside the remote target: the restart signal
    restarts the child without a rebuild, and [Reload] there rebuilds
    without restarting in-process (it sends [kill -HUP] through the
    gateway and leaves the tracked child as it is). *)
Lemma reload_inside_remote_skips_build :
  topology (isUsedDocker (rl Sample.inside_running))
    (isOnDockerContainer Sample.inside_running) = InsideRemote
  ∧ onSIGHUP Sample.calm Sample.inside_running =
    (Ok tt,
     set_cmd (Some {| Command_path := "/work/.rebirth/program";
                      Command_env := ["PORT=80"] |})
       (set_log
          [EvStdout "Restarting...";
           EvStop Sample.old;
           EvRunAsync {| Command_path := "/work/.rebirth/program";
                         Command_env := ["PORT=80"] |}]
          Sample.inside_running))
  ∧ Reload Sample.calm Sample.inside_running =
    (Ok tt,
     set_log
       [EvStdout "Building....";
        EvStdout "Running: go generate";
        EvGoRun {| Go_env := ["GOPATH=/go"]; Go_cross := None; Go_dir := None |}
          ["go"; "generate"];
        EvGoBuild {| Go_env := ["GOPATH=/go"]; Go_cross := None; Go_dir := None |}
          ["-o"; "/work/.rebirth/program"; "."];
        EvDockerRun "app" ["kill"; "-HUP"; "4711"]]
       Sample.inside_running).
Proof. repeat split; vm_compute; reflexivity. Qed.

(** ** Shutdown *)

(** C6, as amended: with no remote target [Close] returns at once and
    leaves the tracked child alone.  Inside the remote target with a
    tracked child, [Close] stops that child and clears the record, and
    a second [Close] stops nothing.  On the host of a configured
    container [Close] reads the peer's pid and runs [kill -QUIT pid] in
    the container, once, touching no local child; when the pid cannot
    be read it returns that error and does nothing. *)
Theorem Close_by_topology (sys : Sys) (s : State) :
  (isUsedDocker (rl s) = false → Close sys s = (Ok tt, s))
  ∧ (∀ c, isUsedDocker (rl s) = true → isOnDockerContainer s = true →
       cmd (rl s) = Some c →
       outcome sys (log s ++ [EvStdout "stop current process..."; EvStop c]) = None →
       let s1 := set_cmd None
                   (set_log (log s ++ [EvStdout "stop current process..."; EvStop c]) s) in
       Close sys s = (Ok tt, s1)
       ∧ Close sys s1 = (Ok tt, set_log (log s1 ++ [EvStdout "stop current process..."]) s1))
  ∧ (∀ d, host (rl s) = Some {| config.Host_Docker := d |} → d ≠ "" →
       isOnDockerContainer s = false →
       (∀ pid, fst (readPID s) = Ok pid →
          let l := log s ++ [EvStdout "stop hot reloader on container...";
                             EvDockerRun d ["kill"; "-QUIT"; fmt.Sprint pid]] in
          Close sys s =
          (match outcome sys l with
           | None => Ok tt
           | Some e => Err (Errorf "failed to exec command on docker container" e)
           end, set_log l s))
       ∧ (∀ e, fst (readPID s) = Err e →
            Close sys s = (Err (Errorf "failed to read pid" e), s))).
Proof.
  split; [| split].
  - intros Hl. unfold Close, bind, gets. rewrite Hl. reflexivity.
  - intros c Hused Hinside Hc Ho. cbn zeta. split.
    + unfold Close. unfold bind at 1, gets. rewrite Hused. cbn [negb].
      unfold bind at 1. rewrite Hinside. unfold Println.
      erewrite bind_Ok; [| reflexivity].
      unfold stopCurrentProcess, try, bind, gets.
      cbn [set_log rl log]. rewrite Hc, call_eq. cbn [set_log log].
      rewrite <- app_assoc. cbn [app]. rewrite Ho. reflexivity.
    + unfold Close. unfold bind at 1, gets. cbn [set_cmd set_log rl host].
      change (isUsedDocker _) with (isUsedDocker (rl s)). rewrite Hused. cbn [negb].
      unfold bind at 1.
      change (isOnDockerContainer _) with (isOnDockerContainer s). rewrite Hinside.
      reflexivity.
  - intros d Hh Hd Hout. pose proof (isUsedDocker_host _ d Hh Hd) as Hused.
    pose proof (readPID_state s) as Hst.
    split.
    + intros pid Hpid. cbn zeta. unfold Close. unfold bind at 1, gets.
      rewrite Hused. cbn [negb]. unfold bind at 1. rewrite Hout.
      destruct (readPID s) as [r s0] eqn:Hr. cbn [fst snd] in *. subst r s0.
      erewrite bind_Ok; [| apply try_Ok; exact Hr].
      unfold host_Docker, deref, bind at 1, bind at 1, ret. rewrite Hh.
      cbn [config.Host_Docker]. unfold Println.
      erewrite bind_Ok; [| reflexivity].
      unfold try. rewrite call_eq. cbn [set_log log]. rewrite <- app_assoc. cbn [app].
      destruct (outcome sys _); reflexivity.
    + intros e He. unfold Close. unfold bind at 1, gets.
      rewrite Hused. cbn [negb]. unfold bind at 1. rewrite Hout.
      destruct (readPID s) as [r s0] eqn:Hr. cbn [fst snd] in *. subst r s0.
      erewrite bind_Err; [reflexivity |]. apply try_Err. exact Hr.
Qed.

Lemma Close_by_topology_witness :
  Close Sample.calm Sample.local_running = (Ok tt, Sample.local_running)
  ∧ Close Sample.calm Sample.inside_running =
    (Ok tt,
     set_cmd None
       (set_log [EvStdout "stop current process..."; EvStop Sample.old]
          Sample.inside_running))
  ∧ Close Sample.calm Sample.delegating =
    (Ok tt,
     set_log [EvStdout "stop hot reloader on container...";
              EvDockerRun "app" ["kill"; "-QUIT"; "4711"]]
       Sample.delegating)
  ∧ Close Sample.calm Sample.inside_twin
    = (Ok tt, Sample.inside_twin).
Proof.
  split; [| split; [| split]].
  - apply (proj1 (Close_by_topology Sample.calm Sample.local_running)).
    reflexivity.
  - apply (proj1 (proj2 (Close_by_topology Sample.calm Sample.inside_running))
             Sample.old); reflexivity.
  - destruct (proj2 (proj2 (Close_by_topology Sample.calm Sample.delegating)) "app")
      as [Hsig _]; [reflexivity | discriminate | reflexivity |].
    rewrite (Hsig 4711); reflexivity.
  - apply (proj1 (Close_by_topology Sample.calm Sample.inside_twin)).
    reflexivity.
Defined.

(** C6 as stated fails: with no remote target [Close] does not stop the
    tracked child. *)
Lemma Close_local_leaves_child :
  topology (isUsedDocker (rl Sample.local_running))
    (isOnDockerContainer Sample.local_running) = Local
  ∧ cmd (rl Sample.local_running) = Some Sample.old
  ∧ Close Sample.calm Sample.local_running = (Ok tt, Sample.local_running)
  ∧ cmd (rl (snd (Close Sample.calm Sample.local_running))) = Some Sample.old
  ∧ log (snd (Close Sample.calm Sample.local_running)) = [].
Proof. repeat split; vm_compute; reflexivity. Qed.

(** ** Loading the configuration *)

Lemma decode_Build_env_only e1 e2 :
  config.field "env" e1 = config.field "env" e2 →
  config.decode_Build (config.YMap e1) = config.decode_Build (config.YMap e2).
Proof.
  intros H. unfold config.decode_Build, config.decode_env_field. rewrite H.
  reflexivity.
Qed.

(** C9 does not hold of config.go: the build section that [LoadConfig]
    returns is its [Env] and nothing else.  A file whose build section
    lists init, before and after commands loads to a [Build] that holds
    the environment only, the value the document without the three
    lists decodes to; a [Build] is its [Env], so no list reaches the
    supervisor. *)
Theorem Unmarshal_drops_build_lists :
  config.LoadConfig Sample.read_yaml {[ ".rebirth.yml" := Sample.yml ]} ".rebirth.yml" =
    Ok {| config.Config_Host := None;
          config.Config_Build := Some {| config.Build_Env := {[ "GOPATH" := "/go" ]} |};
          config.Config_Run := None |}
  ∧ config.Unmarshal Sample.doc = config.Unmarshal Sample.doc_env_only
  ∧ ∀ b : config.Build, b = {| config.Build_Env := config.Build_Env b |}.
Proof.
  split; [| split].
  - vm_compute. reflexivity.
  - vm_compute. reflexivity.
  - intros [e]. reflexivity.
Qed.
(** ** More on the pid file *)

Section PidFile.
Import strconv fmt.

Lemma append_nil_l (s : string) : "" +:+ s = s.
Proof. reflexivity. Qed.

Lemma append_cons c (s t : string) : String c s +:+ t = String c (s +:+ t).
Proof. reflexivity. Qed.

Lemma parse_loop_nondigit pre : ∀ n c post,
  digit_val c = None →
  ∃ k, parse_loop n (pre +:+ String c post) = inl k.
Proof.
  induction pre as [| c0 pre IH]; intros n c post Hc;
    rewrite ?append_nil_l, ?append_cons; cbn [parse_loop].
  - rewrite Hc. eauto.
  - destruct (digit_val c0); [| eauto].
    destruct (_ <=? n); [eauto |].
    destruct (_ || _); [eauto |]. apply IH. exact Hc.
Qed.

Lemma ParseInt_of_ParseUint_error c rest neg s k :
  ParseUint s = inl k →
  ∃ e,
    (let cutoff := 2 ^ 63 in
     let range_check (un : Z) :=
       if negb neg && (cutoff <=? un)
       then inl (mkNumError "ParseInt" (String c rest) ErrRange)
       else if neg && (cutoff <? un)
       then inl (mkNumError "ParseInt" (String c rest) ErrRange)
       else inr (if neg then - un else un) in
     match ParseUint s with
     | inl ErrSyntax => inl (mkNumError "ParseInt" (String c rest) ErrSyntax)
     | inl ErrRange => range_check maxUint64
     | inr un => range_check un
     end) = inl e.
Proof.
  intros ->. destruct k; [eauto |]. destruct neg; cbn; eauto.
Qed.

(** A content with a byte that is no decimal digit (the sign place
    apart) does not parse. *)
Lemma ParseInt_nondigit pre c post :
  digit_val c = None →
  (pre = "" → c ≠ "+"%char ∧ c ≠ "-"%char) →
  ∃ e, ParseInt (pre +:+ String c post) = inl e.
Proof.
  intros Hc Hsign. destruct pre as [| c0 pre].
  - destruct (Hsign eq_refl) as [Hp Hm]. rewrite append_nil_l. unfold ParseInt.
    rewrite (proj2 (Ascii.eqb_neq _ _) Hp), (proj2 (Ascii.eqb_neq _ _) Hm).
    apply ParseInt_of_ParseUint_error with (k := ErrSyntax).
    cbn [ParseUint parse_loop]. rewrite Hc. reflexivity.
  - rewrite append_cons. unfold ParseInt.
    destruct (Ascii.eqb c0 "+") eqn:Hplus; [| destruct (Ascii.eqb c0 "-") eqn:Hminus].
    + destruct (parse_loop_nondigit pre 0 c post Hc) as [k Hk].
      apply ParseInt_of_ParseUint_error with (k := k).
      unfold ParseUint. destruct pre; exact Hk.
    + destruct (parse_loop_nondigit pre 0 c post Hc) as [k Hk].
      apply ParseInt_of_ParseUint_error with (k := k).
      unfold ParseUint. destruct pre; exact Hk.
    + destruct (parse_loop_nondigit (String c0 pre) 0 c post Hc) as [k Hk].
      apply ParseInt_of_ParseUint_error with (k := k). exact Hk.
Qed.

Lemma digit_byte_not_sign d :
  0 <= d <= 9 →
  Ascii.eqb (digit_byte d) "+" = false ∧ Ascii.eqb (digit_byte d) "-" = false.
Proof.
  intros Hd.
  assert (Hc : d = 0 ∨ d = 1 ∨ d = 2 ∨ d = 3 ∨ d = 4 ∨ d = 5 ∨ d = 6
             ∨ d = 7 ∨ d = 8 ∨ d = 9) by lia.
  repeat (destruct Hc as [-> | Hc]; [split; reflexivity |]). subst d.
  split; reflexivity.
Qed.

(** Every [int64] printed in decimal parses back to itself, the
    negative ones and the smallest one included. *)
Lemma ParseInt_Sprint_int64 i :
  - 2 ^ 63 <= i < 2 ^ 63 → ParseInt (Sprint i) = inr i.
Proof.
  intros Hi. destruct (Z.le_gt_cases 0 i) as [Hpos | Hneg].
  - apply ParseInt_Sprint. lia.
  - change (2 ^ 63) with 9223372036854775808 in Hi.
    unfold Sprint. destruct (Z.ltb_spec i 0); [| lia].
    set (u := - i). set (rounds := Z.to_nat (Z.log2 u)).
    assert (Hu : 0 < u <= 9223372036854775808) by (subst u; lia).
    destruct (fmt_digits_head rounds u "" ltac:(lia)) as (d & rest & Hd & Heq).
    assert (Hloop : parse_loop 0 (fmt_digits rounds u "") = inr u).
    { rewrite parse_fmt_digits; [done | rewrite maxUint64_val; lia |].
      subst rounds. rewrite Z2Nat.id; [lia | apply Z.log2_nonneg]. }
    unfold ParseInt. cbn [Ascii.eqb Bool.eqb]. unfold ParseUint.
    rewrite Heq in *. rewrite Hloop.
    change (2 ^ 63) with 9223372036854775808. cbn [negb andb].
    destruct (Z.ltb_spec 9223372036854775808 u); [lia |].
    f_equal. subst u. lia.
Qed.

End PidFile.

(** X: a pid file that holds a byte which is no decimal digit (other
    than a sign in the first place) is refused by [readPID] with the
    parse error, and the state stays as it is; a trailing newline is
    such a byte. *)
Theorem readPID_rejects_nondigit (s : State) (pre : string) (c : ascii) (post : string) :
  files s !! pidPath = Some (pre +:+ String c post) →
  strconv.digit_val c = None →
  (pre = "" → c ≠ "+"%char ∧ c ≠ "-"%char) →
  ∃ e, readPID s = (Err (Errorf "failed to parse pid number" (NumError e)), s).
Proof.
  intros Hf Hc Hsign. rewrite (readPID_present s _ Hf).
  destruct (ParseInt_nondigit pre c post Hc Hsign) as [e ->]. eauto.
Qed.

Lemma readPID_rejects_nondigit_witness :
  ∃ e, readPID Sample.delegating_newline
       = (Err (Errorf "failed to parse pid number" (NumError e)),
          Sample.delegating_newline).
Proof.
  apply (readPID_rejects_nondigit Sample.delegating_newline "42" "010"%char "").
  - reflexivity.
  - reflexivity.
  - discriminate.
Defined.

(** X: [readPID] returns every [int64] that the pid file holds in
    decimal, a negative one as well: it checks no sign. *)
Theorem readPID_reads_any_int64 (s : State) (i : Z) :
  - 2 ^ 63 <= i < 2 ^ 63 →
  files s !! pidPath = Some (fmt.Sprint i) →
  readPID s = (Ok i, s).
Proof.
  intros Hi Hf. rewrite (readPID_present s _ Hf), ParseInt_Sprint_int64 by done.
  reflexivity.
Qed.

Lemma readPID_reads_any_int64_witness :
  readPID Sample.delegating_minus_one = (Ok (-1), Sample.delegating_minus_one).
Proof.
  apply (readPID_reads_any_int64 Sample.delegating_minus_one (-1)).
  - cbn. lia.
  - reflexivity.
Defined.
(** ** Arguments and environments of commands *)

Lemma Split_nonempty s : strings.Split s ≠ [].
Proof.
  destruct s as [| c s]; cbn [strings.Split]; [discriminate |].
  destruct (Ascii.eqb c " "); [discriminate |].
  destruct (strings.Split s); discriminate.
Qed.

Lemma concat_cons_char c w ws :
  String.concat " " (String c w :: ws) = String c (String.concat " " (w :: ws)).
Proof. destruct ws; reflexivity. Qed.

(** X: the argument vector [strings.Split(cmd, " ")] of a hook is never
    empty, put together again with single spaces it is the command, and
    no argument holds a space (two spaces in a row give an empty
    argument, not a skipped one). *)
Theorem Split_argv (cmd : string) :
  strings.Split cmd ≠ []
  ∧ String.concat " " (strings.Split cmd) = cmd
  ∧ Forall (λ w, ∀ pre post, w ≠ pre +:+ String " " post) (strings.Split cmd).
Proof.
  split; [apply Split_nonempty |].
  induction cmd as [| c s [IHc IHf]].
  - split; [reflexivity |]. constructor; [| constructor].
    intros [| c pre] post; discriminate.
  - cbn [strings.Split]. destruct (Ascii.eqb_spec c " ") as [-> | Hc].
    + split.
      * pose proof (Split_nonempty s) as Hne.
        destruct (strings.Split s) as [| w ws] eqn:Hs; [done |].
        change (String.concat " " ("" :: w :: ws))
          with (String " " (String.concat " " (w :: ws))).
        rewrite IHc. reflexivity.
      * constructor; [| exact IHf]. intros [| c pre] post; discriminate.
    + pose proof (Split_nonempty s) as Hne.
      destruct (strings.Split s) as [| w ws] eqn:Hs; [done |].
      split.
      * rewrite concat_cons_char, IHc. reflexivity.
      * inversion IHf as [| w' ws' Hw Hws]; subst.
        constructor; [| exact Hws].
        intros [| c' pre] post Heq.
        -- rewrite append_nil_l in Heq. injection Heq as Heq _. done.
        -- rewrite append_cons in Heq. injection Heq as _ Heq.
           exact (Hw pre post Heq).
Qed.

(** ** Builds, whatever their result *)

Section Builders.

Context (sys : Sys) (P : Event → Prop).
Hypothesis P_build : ∀ ev, is_build_event ev = true → P ev.

Lemma stays_hook cmd :
  stays (grows P) (runBuildHookCommandInGoContext sys cmd).
Proof.
  unfold runBuildHookCommandInGoContext.
  apply stays_bind; [typeclasses eauto | apply stays_deref; typeclasses eauto |].
  intros b. apply stays_try, stays_call. apply P_build. reflexivity.
Qed.

Lemma stays_runPhase_build ph : stays (grows P) (runPhase sys ph).
Proof.
  assert (Hbody : ∀ msg cmd,
    stays (grows P)
      (Println ("Running: " +:+ cmd) >>
       try msg (runBuildHookCommandInGoContext sys cmd))%go).
  { intros msg cmd. apply stays_bind; [typeclasses eauto | |].
    - apply stays_emit. apply P_build. reflexivity.
    - intros _. apply stays_try, stays_hook. }
  destruct ph; cbn [runPhase];
    unfold runBuildInitCommands, runBuildBeforeCommands, runBuildAfterCommands;
    (apply stays_bind; [typeclasses eauto | apply stays_deref; typeclasses eauto |]);
    intros b; apply stays_for_range; try typeclasses eauto; intros cmd; apply Hbody.
Qed.

Lemma stays_host_Docker : stays (grows P) host_Docker.
Proof.
  unfold host_Docker. apply stays_bind; [typeclasses eauto | |].
  - apply stays_deref; typeclasses eauto.
  - intros h. apply stays_ret; typeclasses eauto.
Qed.

Lemma stays_xbuild_build target source :
  stays (grows P) (xbuild sys target source).
Proof.
  unfold xbuild.
  apply stays_bind; [typeclasses eauto | |].
  { apply stays_emit. apply P_build. reflexivity. }
  intros _. apply stays_bind; [typeclasses eauto | |].
  { apply stays_try. apply (stays_runPhase_build PhaseBefore). }
  intros _.
  apply stays_bind; [typeclasses eauto | apply stays_gets; typeclasses eauto |].
  intros b.
  apply stays_bind; [typeclasses eauto | apply stays_gets; typeclasses eauto |].
  intros cross. apply stays_bind; [typeclasses eauto | |].
  { destruct cross; [| apply stays_ret; typeclasses eauto].
    apply stays_bind; [typeclasses eauto | apply stays_host_Docker |].
    intros c. apply stays_ret; typeclasses eauto. }
  intros g. apply stays_bind; [typeclasses eauto | |].
  { apply stays_try, stays_call. apply P_build. reflexivity. }
  intros _. apply stays_try. apply (stays_runPhase_build PhaseAfter).
Qed.

Lemma stays_xbuildRebirth : stays (grows P) (xbuildRebirth sys).
Proof.
  unfold xbuildRebirth.
  apply stays_bind; [typeclasses eauto | apply stays_host_Docker |].
  intros c.
  apply stays_bind; [typeclasses eauto | apply stays_gets; typeclasses eauto |].
  intros b. apply stays_try, stays_call. apply P_build. reflexivity.
Qed.

End Builders.

Lemma grows_unfold (P : Event → Prop) s s' :
  grows P s s' →
  rl s' = rl s ∧ files s' = files s ∧ ∃ evs, log s' = log s ++ evs ∧ Forall P evs.
Proof. intros (evs & -> & H). repeat split. eauto. Qed.

Lemma grows_drift (P : Event → Prop) s s' : grows P s s' → drift P s s'.
Proof. intros (evs & -> & H). repeat split. eauto. Qed.

(** ** The build in pieces *)



(** ** Start-ups that do not go through *)

Section Fails.

Context (R : State → State → Prop) `{!PreOrder R}.

Lemma stays_fails {A} (m : M A) : stays R m → fails R m.
Proof. intros H s _. apply H. Qed.

Lemma fails_bind {A B} (m : M A) (k : A → M B) :
  stays R m → (∀ a, fails R (k a)) → fails R (bind m k).
Proof.
  intros Hm Hk s. unfold bind. specialize (Hm s).
  destruct (m s) as [[a | e |] s1]; cbn [snd fst] in *; [| done | done].
  intros Hf. etransitivity; [exact Hm | apply Hk; exact Hf].
Qed.

Lemma fails_then_total {A B} (m : M A) (k : A → M B) :
  fails R m → (∀ a s, is_Ok (fst (k a s)) = true) → fails R (bind m k).
Proof.
  intros Hm Hk s. unfold bind. specialize (Hm s).
  destruct (m s) as [[a | e |] s1]; cbn [snd fst] in *.
  - intros Hf. rewrite Hk in Hf. discriminate.
  - intros _. apply Hm. reflexivity.
  - intros _. apply Hm. reflexivity.
Qed.

Lemma fails_try {A} msg (m : M A) : fails R m → fails R (try msg m).
Proof.
  intros Hm s. unfold try. specialize (Hm s).
  destruct (m s) as [[a | e |] s1]; exact Hm.
Qed.

End Fails.

Lemma stays_weaken (R1 R2 : State → State → Prop) {A} (m : M A) :
  (∀ s s', R1 s s' → R2 s s') → stays R1 m → stays R2 m.
Proof. intros H Hm s. apply H, Hm. Qed.

#[local] Instance nothing_launched_preorder : PreOrder nothing_launched.
Proof.
  split.
  - intros s. split; [reflexivity |]. exists []. split; [| constructor].
    rewrite app_nil_r. reflexivity.
  - intros s1 s2 s3 (Hc1 & evs1 & Hl1 & H1) (Hc2 & evs2 & Hl2 & H2).
    split; [congruence |]. exists (evs1 ++ evs2). split.
    + rewrite Hl2, Hl1, app_assoc. reflexivity.
    + apply Forall_app; done.
Qed.

Lemma build_nothing_launched s s' :
  grows (λ ev, is_build_event ev = true) s s' → nothing_launched s s'.
Proof.
  intros (evs & -> & H). split; [reflexivity |]. exists evs. split; [reflexivity |].
  eapply Forall_impl; [exact H |]. intros [] Hev; done.
Qed.

Lemma stays_writePID sys : stays nothing_launched (writePID sys).
Proof.
  intros s. unfold writePID, WriteFile, try, bind. rewrite call_eq.
  destruct (outcome sys _); cbn [snd set_files set_log rl log];
    (split; [reflexivity |]); eexists; (split; [reflexivity |]);
    repeat constructor.
Qed.

Lemma fails_reload sys : fails nothing_launched (reload sys).
Proof.
  intros s Hf. destruct (cmd (rl s)) as [c |] eqn:Hc.
  - destruct (outcome sys (log s ++ [EvStdout "Restarting..."; EvStop c]))
      as [e |] eqn:Ho.
    + rewrite (reload_stop_fails sys s c e Hc Ho). cbn [snd set_log rl log].
      split; [reflexivity |]. eexists. split; [reflexivity |]. repeat constructor.
    + rewrite (reload_stop_ok sys s c Hc Ho) in Hf. discriminate.
  - rewrite (reload_nothing_running sys s Hc) in Hf. discriminate.
Qed.

(** X: a start-up that does not go through, in whatever topology and
    for whatever reason, has started no child, has launched no peer and
    has set up no signal watch, and the tracked child is the one from
    before. *)
Theorem Run_failure_starts_nothing (sys : Sys) (s : State) :
  is_Ok (fst (Run sys s)) = false →
  cmd (rl (snd (Run sys s))) = cmd (rl s)
  ∧ ∃ evs, log (snd (Run sys s)) = log s ++ evs
           ∧ Forall (λ ev, is_launch_event ev = false) evs.
Proof.
  assert (Hbuild : ∀ A (m : M A),
            stays (grows (λ ev, is_build_event ev = true)) m →
            stays nothing_launched m).
  { intros A m. apply stays_weaken. apply build_nothing_launched. }
  assert (Hfails : fails nothing_launched (Run sys)).
  { intros s0. rewrite Run_by_arm. revert s0.
    apply (fails_then_total nothing_launched); [| reflexivity].
    intros s0. destruct (Run_arm s0); cbn [arm_body]; revert s0.
    - apply fails_bind; [typeclasses eauto | |].
      + apply stays_try, stays_writePID.
      + intros _. apply fails_try, fails_reload.
    - apply fails_bind; [typeclasses eauto | |].
      { apply stays_try. apply Hbuild, stays_xbuildRebirth. done. }
      intros _. apply fails_bind; [typeclasses eauto | |].
      { apply stays_try.
        apply Hbuild, (stays_runPhase_build sys _ (λ _ H, H) PhaseInit). }
      intros _. apply fails_bind; [typeclasses eauto | |].
      { apply stays_try. apply Hbuild, stays_xbuild_build. done. }
      intros _. apply fails_bind; [typeclasses eauto | |].
      { apply Hbuild, stays_host_Docker. }
      intros d s0 Hf. discriminate.
    - apply fails_bind; [typeclasses eauto | |].
      { apply stays_try.
        apply Hbuild, (stays_runPhase_build sys _ (λ _ H, H) PhaseInit). }
      intros _. apply fails_bind; [typeclasses eauto | |].
      { apply stays_try. apply Hbuild, stays_xbuild_build. done. }
      intros _. apply fails_try, fails_reload. }
  intros Hf. exact (Hfails s Hf).
Qed.

Lemma Run_failure_starts_nothing_witness :
  cmd (rl (snd (Run Sample.compile_fails Sample.local_running))) = Some Sample.old
  ∧ ∃ evs, log (snd (Run Sample.compile_fails Sample.local_running)) = [] ++ evs
           ∧ Forall (λ ev, is_launch_event ev = false) evs.
Proof.
  apply (Run_failure_starts_nothing Sample.compile_fails Sample.local_running).
  reflexivity.
Defined.
(** ** Builds that do not go through *)

Lemma bind_Err_inv {A B} (m : M A) (k : A → M B) s e s' :
  bind m k s = (Err e, s') →
  m s = (Err e, s') ∨ ∃ a s1, m s = (Ok a, s1) ∧ k a s1 = (Err e, s').
Proof.
  unfold bind. destruct (m s) as [[a | e0 |] s1]; intros H.
  - right. eauto.
  - left. inversion H. reflexivity.
  - discriminate.
Qed.

Lemma try_Err_inv {A} msg (m : M A) s e s' :
  try msg m s = (Err e, s') → ∃ e0, e = Errorf msg e0 ∧ m s = (Err e0, s').
Proof.
  unfold try. destruct (m s) as [[a | e0 |] s1]; intros H; inversion H. eauto.
Qed.

Lemma runPhase_Err_inv sys ph s b e s' :
  build (rl s) = Some b →
  runPhase sys ph s = (Err e, s') →
  ∃ k : nat, (k < length (phase_commands ph b))%nat
    ∧ s' = set_log (log s ++ hooks_events sys b (take (S k) (phase_commands ph b))) s.
Proof.
  intros Hb H. rewrite (runPhase_eq sys ph s b Hb) in H.
  apply (hooks_loop_Err_inv sys _ b) in H as (k & c & e0 & Hk & _ & _ & _ & ->);
    [| exact Hb].
  exists k. split; [| reflexivity]. eapply lookup_lt_Some. exact Hk.
Qed.

(** X: a build that returns an error stopped where the error arose.  A
    failing before hook ends it before the compiler runs; a failing
    compile ends it before any after hook runs; otherwise an after hook
    failed, and the hooks behind it did not run. *)
Theorem xbuild_failure (sys : Sys) (s : State) (b : Build) (e : error) (s' : State) :
  build (rl s) = Some b →
  xbuild sys (buildPath sys) "." s = (Err e, s') →
  (∃ (k : nat) e0,
     (k < length (Build_Before b))%nat
     ∧ e = Errorf "failed to run build.before commands" e0
     ∧ s' = set_log (log s ++ EvStdout "Building...."
                       :: hooks_events sys b (take (S k) (Build_Before b))) s)
  ∨ (∃ e0,
       e = Errorf "failed to build" e0
       ∧ s' = set_log (log s ++ EvStdout "Building...."
                         :: hooks_events sys b (Build_Before b)
                         ++ [compile_event sys b (cross_target s)]) s)
  ∨ (∃ (k : nat) e0,
       (k < length (Build_After b))%nat
       ∧ e = Errorf "failed to run build.after commands" e0
       ∧ s' = set_log (log s ++ EvStdout "Building...."
                         :: hooks_events sys b (Build_Before b)
                         ++ compile_event sys b (cross_target s)
                         :: hooks_events sys b (take (S k) (Build_After b))) s).
Proof.
  intros Hb H. unfold xbuild in H.
  apply bind_Err_inv in H as [H | ([] & s1 & H1 & H)]; [discriminate |].
  inversion H1; subst s1; clear H1.
  apply bind_Err_inv in H as [H | ([] & s2 & H2 & H)].
  { left. apply try_Err_inv in H as (e0 & -> & H).
    apply (runPhase_Err_inv sys PhaseBefore _ b) in H as (k & Hk & ->); [| exact Hb].
    exists k, e0. repeat split; [exact Hk |].
    unfold set_log. cbn [rl files log phase_commands]. f_equal.
    rewrite <- app_assoc. reflexivity. }
  right. apply try_Ok_inv in H2.
  apply (runPhase_Ok_inv sys PhaseBefore) in H2 as (b' & Hb' & ->).
  cbn [set_log rl log] in Hb'. rewrite Hb in Hb'. injection Hb' as <-.
  apply bind_Err_inv in H as [H | (ob & s3 & H3 & H)]; [discriminate |].
  apply gets_Ok_inv in H3 as [-> ->].
  cbn [set_log log rl] in H. rewrite Hb in H.
  apply bind_Err_inv in H as [H | (cross & s4 & H4 & H)]; [discriminate |].
  apply gets_Ok_inv in H4 as [-> ->].
  rewrite !isOnDockerContainer_set_log in H. cbn [set_log log rl] in H.
  apply bind_Err_inv in H as [H | (g & s5 & H5 & H)].
  { destruct (isUsedDocker (rl s) && negb (isOnDockerContainer s)); [| discriminate].
    apply bind_Err_inv in H as [H | (d & s6 & H6 & H)]; [| discriminate].
    unfold host_Docker, bind, deref, ret in H. cbn [set_log rl] in H.
    destruct (host (rl s)); discriminate. }
  assert (Hg : g = build_gocmd sys b (cross_target s) ∧ s5 =
            set_log ((log s ++ [EvStdout "Building...."])
                     ++ hooks_events sys b (phase_commands PhaseBefore b)) s).
  { unfold cross_target.
    destruct (isUsedDocker (rl s) && negb (isOnDockerContainer s)).
    - apply bind_Ok_inv in H5 as (d & s6 & H6 & H5).
      apply host_Docker_Ok_inv in H6 as [Hd ->]. cbn [rl set_log] in Hd.
      rewrite Hd. inversion H5. done.
    - inversion H5. done. }
  destruct Hg as [-> ->].
  apply bind_Err_inv in H as [H | ([] & s6 & H6 & H)].
  { left. apply try_Err_inv in H as (e0 & -> & H). rewrite call_eq in H.
    destruct (outcome sys _) as [e1 |]; inversion H; subst.
    eexists. split; [reflexivity |].
    unfold set_log, compile_event. cbn [rl files log phase_commands]. f_equal.
    repeat rewrite <- app_assoc. reflexivity. }
  right. apply try_Ok_inv in H6. rewrite call_eq in H6.
  destruct (outcome sys _); inversion H6; subst s6; clear H6.
  apply try_Err_inv in H as (e0 & -> & H).
  apply (runPhase_Err_inv sys PhaseAfter _ b) in H as (k & Hk & ->); [| exact Hb].
  exists k, e0. repeat split; [exact Hk |].
  unfold set_log, compile_event. cbn [rl files log phase_commands]. f_equal.
  repeat rewrite <- app_assoc. reflexivity.
Qed.

Lemma xbuild_failure_witness :
  ∃ e0,
    fst (xbuild Sample.compile_fails (buildPath Sample.compile_fails) "." Sample.local)
      = Err (Errorf "failed to build" e0)
    ∧ log (snd (xbuild Sample.compile_fails (buildPath Sample.compile_fails) "."
                  Sample.local))
      = EvStdout "Building...."
          :: hooks_events Sample.compile_fails Sample.hooks ["go generate"]
          ++ [compile_event Sample.compile_fails Sample.hooks None].
Proof.
  destruct (xbuild_failure Sample.compile_fails Sample.local Sample.hooks
              (Errorf "failed to build" Sample.exit1)
              (snd (xbuild Sample.compile_fails (buildPath Sample.compile_fails) "."
                      Sample.local)) eq_refl eq_refl)
    as [(k & e0 & _ & He & _) | [(e0 & He & Hs) | (k & e0 & _ & He & _)]];
    [discriminate | | discriminate].
  exists e0. rewrite Hs. split; [| reflexivity]. rewrite <- He. reflexivity.
Defined.

(** ** No build section *)

Lemma Run_on_host_Ok_build sys s s' :
  Run_on_host_for_container sys s = (Ok tt, s') → build (rl s) ≠ None.
Proof.
  unfold Run_on_host_for_container. intros H.
  apply bind_Ok_inv in H as ([] & s1 & H1 & H).
  apply try_Ok_inv in H1.
  pose proof (stays_xbuildRebirth sys _ (λ _ H, H) s) as Hg. rewrite H1 in Hg.
  apply grows_unfold in Hg as (Hrl & _). cbn [snd] in Hrl.
  apply bind_Ok_inv in H as ([] & s2 & H2 & H).
  apply try_Ok_inv in H2.
  apply (runPhase_Ok_inv sys PhaseInit) in H2 as (b & Hb & _).
  rewrite Hrl in Hb. congruence.
Qed.

(** X: with no build section ([r.build] is nil) every hook phase
    panics at once, a build panics right after its announcement, before
    any hook or compile, and so does [Reload]; a start-up panics with
    nothing done when no remote target is configured, and goes through
    in no topology but inside the remote target. *)
Theorem no_build_section (sys : Sys) (s : State) :
  build (rl s) = None →
  (∀ ph, runPhase sys ph s = (Panic, s))
  ∧ (∀ target source,
       xbuild sys target source s
       = (Panic, set_log (log s ++ [EvStdout "Building...."]) s))
  ∧ Reload sys s = (Panic, set_log (log s ++ [EvStdout "Building...."]) s)
  ∧ (isUsedDocker (rl s) = false → Run sys s = (Panic, s))
  ∧ (Run_arm s ≠ ArmInContainer → is_Ok (fst (Run sys s)) = false).
Proof.
  intros Hb.
  assert (Hph : ∀ ph l, runPhase sys ph (set_log l s) = (Panic, set_log l s)).
  { intros ph l. apply runPhase_nil. exact Hb. }
  assert (Hx : ∀ target source,
            xbuild sys target source s
            = (Panic, set_log (log s ++ [EvStdout "Building...."]) s)).
  { intros target source. unfold xbuild, Println.
    erewrite bind_Ok; [| reflexivity].
    unfold bind at 1, try at 1.
    change (runBuildBeforeCommands sys) with (runPhase sys PhaseBefore).
    rewrite Hph. reflexivity. }
  split; [| split; [| split; [| split]]].
  - intros ph. apply runPhase_nil. exact Hb.
  - exact Hx.
  - unfold Reload, bind, try. rewrite Hx. reflexivity.
  - intros Hlocal. rewrite Run_by_arm, (Run_arm_local s Hlocal).
    unfold arm_body, Run_on_localhost. unfold bind at 1, bind at 1, try at 1.
    change (runBuildInitCommands sys) with (runPhase sys PhaseInit).
    rewrite (runPhase_nil sys PhaseInit s Hb). reflexivity.
  - intros Harm. destruct (Run sys s) as [[[] | e |] s'] eqn:HR; [| done | done].
    exfalso. rewrite Run_by_arm in HR.
    apply then_watch_Ok_inv in HR as (s1 & H1 & _).
    destruct (Run_arm s); cbn [arm_body] in H1.
    + done.
    + apply Run_on_host_Ok_build in H1. done.
    + apply Run_on_localhost_Ok_inv in H1 as (b & Hb' & _). congruence.
Qed.

Lemma no_build_section_witness :
  Run Sample.calm Sample.bare = (Panic, Sample.bare)
  ∧ Reload Sample.calm Sample.bare
    = (Panic, set_log [EvStdout "Building...."] Sample.bare).
Proof.
  destruct (no_build_section Sample.calm Sample.bare eq_refl)
    as (_ & _ & HR & HRun & _).
  split; [apply HRun; reflexivity | exact HR].
Defined.
(** ** Restarts, one and many *)

(** X: [reload] never panics and fails in one way only: stopping the
    tracked child failed, and then nothing is started and the child
    stays tracked.  In every other case it returns nil, the program is
    started after the old child was stopped, and the program is the
    tracked child. *)
Theorem reload_total (sys : Sys) (s : State) :
  (reload sys s =
     (Ok tt, set_cmd (Some (program sys (rl s)))
               (set_log (log s ++ restart_events sys (rl s)) s))
   ∧ ∀ c, cmd (rl s) = Some c →
       outcome sys (log s ++ [EvStdout "Restarting..."; EvStop c]) = None)
  ∨ (∃ c e,
       cmd (rl s) = Some c
       ∧ outcome sys (log s ++ [EvStdout "Restarting..."; EvStop c]) = Some e
       ∧ reload sys s =
         (Err (Errorf "failed to stop current process"
                 (Errorf "failed to stop process" e)),
          set_log (log s ++ [EvStdout "Restarting..."; EvStop c]) s)).
Proof.
  destruct (cmd (rl s)) as [c |] eqn:Hc.
  - destruct (outcome sys (log s ++ [EvStdout "Restarting..."; EvStop c]))
      as [e |] eqn:Ho.
    + right. exists c, e. repeat split; [exact Ho |].
      apply reload_stop_fails; assumption.
    + left. split; [apply (reload_stop_ok sys s c); assumption |].
      intros c' [= <-]. exact Ho.
  - left. split; [apply reload_nothing_running; assumption |]. discriminate.
Qed.

Lemma program_set_cmd sys c s :
  program sys (rl (set_cmd c s)) = program sys (rl s).
Proof. reflexivity. Qed.

Lemma onSIGHUP_stop_ok sys s :
  (∀ l c, outcome sys (l ++ [EvStop c]) = None) →
  snd (onSIGHUP sys s) =
  set_cmd (Some (program sys (rl s)))
    (set_log (log s ++ restart_events sys (rl s)) s).
Proof.
  intros Hstop. unfold onSIGHUP. destruct (cmd (rl s)) as [c |] eqn:Hc.
  - rewrite (reload_stop_ok sys s c Hc); [reflexivity |].
    change (log s ++ [EvStdout "Restarting..."; EvStop c])
      with (log s ++ [EvStdout "Restarting..."] ++ [EvStop c]).
    rewrite app_assoc. apply Hstop.
  - rewrite (reload_nothing_running sys s Hc). reflexivity.
Qed.

(** X: when stopping a child never fails, after any number [n + 1] of
    reload signals exactly the program is tracked; the first restart
    stopped what ran before, each later one stopped the program the
    one before it had started and started it anew, so every start but
    the last is followed by its stop; the files are untouched. *)
Theorem signals_one_child (sys : Sys) (n : nat) (s : State) :
  (∀ l c, outcome sys (l ++ [EvStop c]) = None) →
  signals sys (S n) s =
  set_cmd (Some (program sys (rl s)))
    (set_log (log s ++ restart_events sys (rl s)
                ++ concat (replicate n (again_events sys (rl s)))) s).
Proof.
  intros Hstop. revert s. induction n as [| n IH]; intros s.
  - cbn [signals replicate concat]. rewrite app_nil_r.
    apply onSIGHUP_stop_ok. exact Hstop.
  - change (signals sys (S (S n)) s)
      with (signals sys (S n) (snd (onSIGHUP sys s))).
    rewrite IH, (onSIGHUP_stop_ok sys s Hstop).
    rewrite program_set_cmd. cbn [set_cmd set_log rl log files cmd host build run].
    unfold set_cmd, set_log. cbn [rl log files host build run]. f_equal.
    change (program sys _) with (program sys (rl s)).
    change (restart_events sys {| host := host (rl s);
                                  cmd := Some (program sys (rl s));
                                  build := build (rl s); run := run (rl s) |})
      with (again_events sys (rl s)).
    change (again_events sys _) with (again_events sys (rl s)).
    cbn [replicate concat]. repeat rewrite <- app_assoc. reflexivity.
Qed.

Lemma signals_one_child_witness :
  signals Sample.calm 3 Sample.inside_running =
  set_cmd (Some Sample.old)
    (set_log
       [EvStdout "Restarting..."; EvStop Sample.old; EvRunAsync Sample.old;
        EvStdout "Restarting..."; EvStop Sample.old; EvRunAsync Sample.old;
        EvStdout "Restarting..."; EvStop Sample.old; EvRunAsync Sample.old]
       Sample.inside_running).
Proof.
  rewrite (signals_one_child Sample.calm 2 Sample.inside_running).
  - reflexivity.
  - intros l c. reflexivity.
Defined.
(** ** What the operations never do *)

#[local] Instance drift_preorder (P : Event → Prop) : PreOrder (drift P).
Proof.
  split.
  - intros s. repeat split. exists []. split; [| constructor].
    rewrite app_nil_r. reflexivity.
  - intros s1 s2 s3 (Hh1 & Hb1 & Hr1 & Hf1 & evs1 & Hl1 & H1)
      (Hh2 & Hb2 & Hr2 & Hf2 & evs2 & Hl2 & H2).
    repeat split; try congruence.
    exists (evs1 ++ evs2). split.
    + rewrite Hl2, Hl1, app_assoc. reflexivity.
    + apply Forall_app; done.
Qed.

Lemma guarded_preorder (C : State → Prop) (R : State → State → Prop) :
  PreOrder R → (∀ s s', C s → R s s' → C s') → PreOrder (guarded C R).
Proof.
  intros HR Hkeep. split.
  - intros s _. reflexivity.
  - intros s1 s2 s3 H12 H23 HC. specialize (H12 HC).
    etransitivity; [exact H12 |]. apply H23. eapply Hkeep; eassumption.
Qed.

Lemma drift_weaken (P Q : Event → Prop) s s' :
  (∀ ev, P ev → Q ev) → drift P s s' → drift Q s s'.
Proof.
  intros HPQ (Hh & Hb & Hr & Hf & evs & Hl & H). repeat split; try assumption.
  exists evs. split; [exact Hl |]. eapply Forall_impl; [exact H | exact HPQ].
Qed.

Lemma grows_weaken (P Q : Event → Prop) s s' :
  (∀ ev, P ev → Q ev) → grows P s s' → grows Q s s'.
Proof.
  intros HPQ (evs & Hs & H). exists evs. split; [exact Hs |].
  eapply Forall_impl; [exact H | exact HPQ].
Qed.

(** Where [reload] leaves the state: restarted, or stuck at the stop. *)
Lemma reload_state sys s :
  snd (reload sys s)
    = set_cmd (Some (program sys (rl s)))
        (set_log (log s ++ restart_events sys (rl s)) s)
  ∨ ∃ c, cmd (rl s) = Some c
         ∧ snd (reload sys s)
           = set_log (log s ++ [EvStdout "Restarting..."; EvStop c]) s.
Proof.
  destruct (cmd (rl s)) as [c |] eqn:Hc.
  - destruct (outcome sys (log s ++ [EvStdout "Restarting..."; EvStop c]))
      as [e |] eqn:Ho.
    + right. exists c. split; [reflexivity |].
      rewrite (reload_stop_fails sys s c e Hc Ho). reflexivity.
    + left. rewrite (reload_stop_ok sys s c Hc Ho). reflexivity.
  - left. rewrite (reload_nothing_running sys s Hc). reflexivity.
Qed.

Section Drift.

Context (sys : Sys) (P : Event → Prop).
Hypothesis P_build : ∀ ev, is_build_event ev = true → P ev.

Lemma build_drift {A} (m : M A) :
  stays (grows (λ ev, is_build_event ev = true)) m → stays (drift P) m.
Proof.
  apply stays_weaken. intros s s' H. apply grows_drift.
  eapply grows_weaken; [| exact H]. exact P_build.
Qed.

Lemma stays_readPID_drift : stays (drift P) readPID.
Proof. intros s. rewrite readPID_state. reflexivity. Qed.

Lemma stays_reload_drift :
  (∀ c, P (EvStop c)) → (∀ c, P (EvRunAsync c)) → stays (drift P) (reload sys).
Proof.
  intros Hstop Hrun s.
  assert (Hout : P (EvStdout "Restarting...")) by (apply P_build; reflexivity).
  destruct (reload_state sys s) as [-> | (c & Hc & ->)];
    cbn [set_cmd set_log rl files log host build run]; repeat split.
  - eexists. split; [reflexivity |]. unfold restart_events, stop_events.
    destruct (cmd (rl s)); repeat constructor; auto.
  - eexists. split; [reflexivity |]. repeat constructor; auto.
Qed.

Lemma stays_xbuild_drift target source : stays (drift P) (xbuild sys target source).
Proof. apply build_drift, stays_xbuild_build. done. Qed.

Lemma stays_runPhase_drift ph : stays (drift P) (runPhase sys ph).
Proof. apply build_drift, (stays_runPhase_build sys _ (λ _ H, H)). Qed.


Lemma stays_emit_drift ev : P ev → stays (drift P) (emit ev).
Proof.
  intros Hev. eapply stays_weaken; [apply grows_drift |]. apply stays_emit. exact Hev.
Qed.


Lemma stays_stop_drift : (∀ c, P (EvStop c)) → stays (drift P) (stopCurrentProcess sys).
Proof.
  intros Hstop s. unfold stopCurrentProcess, bind, gets, try.
  destruct (cmd (rl s)) as [c |]; [| reflexivity].
  rewrite call_eq. destruct (outcome sys _);
    cbn [snd set_cmd set_log rl files log host build run]; repeat split;
    eexists; (split; [reflexivity |]); repeat constructor; auto.
Qed.




Lemma stays_Run_on_localhost_drift :
  (∀ c, P (EvStop c)) → (∀ c, P (EvRunAsync c)) →
  stays (drift P) (Run_on_localhost sys).
Proof.
  intros Hstop Hrun. unfold Run_on_localhost.
  apply stays_bind; [typeclasses eauto | |].
  { apply stays_try, (stays_runPhase_drift PhaseInit). }
  intros _. apply stays_bind; [typeclasses eauto | apply stays_try, stays_xbuild_drift |].
  intros _. apply stays_try, stays_reload_drift; assumption.
Qed.


End Drift.


Lemma bind_gets {A B} (f : State → A) (k : A → M B) s :
  bind (gets f) k s = k (f s) s.
Proof. reflexivity. Qed.

Lemma stays_guarded (C : State → Prop) (R : State → State → Prop) {A} (m : M A) :
  stays R m → stays (guarded C R) m.
Proof. intros H s _. apply H. Qed.

#[local] Instance local_drift_preorder (P : Event → Prop) :
  PreOrder (guarded (λ s, isUsedDocker (rl s) = false) (drift P)).
Proof.
  apply guarded_preorder; [typeclasses eauto |].
  intros s s' Hl (Hh & _). unfold isUsedDocker in *. rewrite Hh. exact Hl.
Qed.

#[local] Instance remote_grows_preorder (P : Event → Prop) :
  PreOrder (guarded (λ s, isUsedDocker (rl s) = true) (grows P)).
Proof.
  apply guarded_preorder; [typeclasses eauto |].
  intros s s' Hu (evs & -> & _). exact Hu.
Qed.

(** X: with no remote target nothing is ever sent to a container:
    start-up, [Reload], [Close] and the signal-driven restart run no
    remote command and launch no peer, however they end. *)
Theorem local_never_remote (sys : Sys) (s : State) :
  isUsedDocker (rl s) = false →
  drift (λ ev, is_remote_event ev = false) s (snd (Run sys s))
  ∧ drift (λ ev, is_remote_event ev = false) s (snd (Reload sys s))
  ∧ drift (λ ev, is_remote_event ev = false) s (snd (Close sys s))
  ∧ drift (λ ev, is_remote_event ev = false) s (snd (onSIGHUP sys s)).
Proof.
  intros Hlocal.
  assert (Hb : ∀ ev, is_build_event ev = true → is_remote_event ev = false)
    by (intros []; done).
  split; [| split; [| split]].
  - rewrite Run_by_arm, (Run_arm_local s Hlocal). revert s Hlocal.
    assert (Hrun : stays (drift (λ ev, is_remote_event ev = false))
                     (arm_body sys ArmOnLocalhost >> watchReloadSignal)%go).
    { apply stays_bind; [typeclasses eauto | |].
      - apply stays_Run_on_localhost_drift; done.
      - intros _. apply stays_emit_drift. done. }
    intros s _. apply Hrun.
  - revert s Hlocal.
    assert (HR : stays (guarded (λ s, isUsedDocker (rl s) = false)
                          (drift (λ ev, is_remote_event ev = false)))
                   (Reload sys)).
    { unfold Reload. apply stays_bind; [typeclasses eauto | |].
      - apply stays_guarded, stays_try, stays_xbuild_drift. exact Hb.
      - intros _ s Hl. unfold try at 1.
        rewrite (sendReloadingSignal_local sys s Hl).
        apply (stays_try _ "failed to send reloading signal"
                 (try "failed to reload" (reload sys))).
        apply stays_try, stays_reload_drift; done. }
    intros s Hl. exact (HR s Hl).
  - unfold Close. rewrite bind_gets, Hlocal. reflexivity.
  - unfold onSIGHUP. cbn [snd]. apply stays_reload_drift; done.
Qed.

Lemma local_never_remote_witness :
  drift (λ ev, is_remote_event ev = false) Sample.local_running
    (snd (Reload Sample.stop_fails Sample.local_running)).
Proof.
  apply (local_never_remote Sample.stop_fails Sample.local_running).
  reflexivity.
Defined.



(** ** Shutdown, in every case *)

(** X: [Close] builds nothing, starts nothing and writes nothing: it
    adds announcements and at most one action, a stop of the tracked
    child or a remote command; the tracked child is afterwards the one
    from before or none. *)
Theorem Close_does_little (sys : Sys) (s : State) :
  drift (λ ev, is_closing_event ev = true) s (snd (Close sys s))
  ∧ (∃ evs, log (snd (Close sys s)) = log s ++ evs
            ∧ (length (List.filter (λ ev, negb (is_stdout ev)) evs) <= 1)%nat)
  ∧ (cmd (rl (snd (Close sys s))) = cmd (rl s)
     ∨ cmd (rl (snd (Close sys s))) = None).
Proof.
  split.
  { revert s.
    assert (Hemit : ∀ ev, is_closing_event ev = true →
              stays (drift (λ ev, is_closing_event ev = true)) (emit ev)).
    { intros ev Hev. eapply stays_weaken; [apply grows_drift |].
      apply stays_emit. exact Hev. }
    assert (Hcall : ∀ ev, is_closing_event ev = true →
              stays (drift (λ ev, is_closing_event ev = true)) (call sys ev)).
    { intros ev Hev. eapply stays_weaken; [apply grows_drift |].
      apply stays_call. exact Hev. }
    assert (Hhost : stays (drift (λ ev, is_closing_event ev = true)) host_Docker).
    { eapply stays_weaken; [apply grows_drift |]. apply stays_host_Docker. }
    unfold Close.
    apply stays_bind; [typeclasses eauto | apply stays_gets; typeclasses eauto |].
    intros []; cbn [negb]; [| apply stays_ret; typeclasses eauto].
    apply stays_bind; [typeclasses eauto | apply stays_gets; typeclasses eauto |].
    intros [].
    - apply stays_bind; [typeclasses eauto | apply Hemit; reflexivity |].
      intros _. apply stays_try, stays_stop_drift. done.
    - apply stays_bind; [typeclasses eauto | apply stays_try, stays_readPID_drift |].
      intros pid. apply stays_bind; [typeclasses eauto | apply Hhost |].
      intros d. apply stays_bind; [typeclasses eauto | apply Hemit; reflexivity |].
      intros _. apply stays_try, Hcall. reflexivity. }
  assert (Hcases : ∃ evs c',
            snd (Close sys s) = set_cmd c' (set_log (log s ++ evs) s)
            ∧ (length (List.filter (λ ev, negb (is_stdout ev)) evs) <= 1)%nat
            ∧ (c' = cmd (rl s) ∨ c' = None)).
  { assert (Hnil : ∀ t, t = s → ∃ evs c',
              t = set_cmd c' (set_log (log s ++ evs) s)
              ∧ (length (List.filter (λ ev, negb (is_stdout ev)) evs) <= 1)%nat
              ∧ (c' = cmd (rl s) ∨ c' = None)).
    { intros t ->. exists [], (cmd (rl s)). rewrite app_nil_r.
      split; [destruct s as [[] ? ?]; reflexivity |].
      split; [cbn; lia | left; reflexivity]. }
    assert (Hlog : ∀ evs, (length (List.filter (λ ev, negb (is_stdout ev)) evs) <= 1)%nat →
              ∃ evs0 c',
                set_log (log s ++ evs) s = set_cmd c' (set_log (log s ++ evs0) s)
                ∧ (length (List.filter (λ ev, negb (is_stdout ev)) evs0) <= 1)%nat
                ∧ (c' = cmd (rl s) ∨ c' = None)).
    { intros evs Hlen. exists evs, (cmd (rl s)).
      split; [destruct s as [[] ? ?]; reflexivity |].
      split; [exact Hlen | left; reflexivity]. }
    unfold Close. rewrite bind_gets.
    destruct (isUsedDocker (rl s)) eqn:Hused; cbn [negb];
      [| apply Hnil; reflexivity].
    rewrite bind_gets. destruct (isOnDockerContainer s) eqn:Hin.
    - unfold Println. erewrite bind_Ok; [| reflexivity].
      unfold stopCurrentProcess, try, bind, gets. cbn [set_log rl log].
      destruct (cmd (rl s)) as [c |] eqn:Hc.
      + rewrite call_eq. cbn [set_log log]. rewrite <- app_assoc.
        destruct (outcome sys _); cbn [snd].
        * apply (Hlog [EvStdout "stop current process..."; EvStop c]). cbn. lia.
        * exists [EvStdout "stop current process..."; EvStop c], None.
          split; [reflexivity |]. split; [cbn; lia | right; reflexivity].
      + cbn [snd ret]. apply (Hlog [EvStdout "stop current process..."]). cbn. lia.
    - pose proof (readPID_state s) as Hst. unfold bind at 1, try at 1.
      destruct (readPID s) as [[pid | e |] s0]; cbn [snd] in *; subst s0;
        [| apply Hnil; reflexivity | apply Hnil; reflexivity].
      unfold host_Docker, deref, bind at 1, bind at 1, ret.
      destruct (host (rl s)) as [h |]; [| apply Hnil; reflexivity].
      unfold Println. erewrite bind_Ok; [| reflexivity].
      unfold try. rewrite call_eq. cbn [set_log log rl]. rewrite <- app_assoc.
      destruct (outcome sys _); cbn [snd];
        apply (Hlog [EvStdout "stop hot reloader on container...";
                     EvDockerRun (config.Host_Docker h)
                       ["kill"; "-QUIT"; fmt.Sprint pid]]); cbn; lia. }
  destruct Hcases as (evs & c' & -> & Hlen & Hc').
  cbn [set_cmd set_log rl log cmd]. split; [eauto | exact Hc'].
Qed.
